(** * Sentinela: alarm firmware (sentinela.cpp), shallow embedding

    The firmware is a single-threaded Arduino sketch: [setup] runs once and
    [loop] runs forever.  All of its state is a handful of globals and two
    function-local statics; every interaction with the outside world is a
    call on a collaborator (GPIO, the Telegram bot, the serial port, the
    logger).  The embedding threads the globals explicitly and records the
    outgoing calls, in program order, as a list of [Effect]s.  Values that
    the environment supplies ([millis()], [digitalRead], [WiFi.status()],
    received messages and radio codes) are parameters of the function that
    reads them, one parameter per read. *)

From Stdlib Require Import ZArith List String Ascii Bool Lia DecimalString DecimalN.
Import ListNotations.
Open Scope string_scope.
Open Scope Z_scope.

(** ** Constants of the sketch *)

Definition HIGH : bool := true.
Definition LOW : bool := false.

Definition PIR_PIN : Z := 13.
Definition RELAY_PIN : Z := 12.
Definition RF_RECEIVER_PIN : Z := 14.
Definition BUTTON_PIN : Z := 27.

Definition CODE_ARM : Z := 1234567.
Definition CODE_DISARM : Z := 7654321.

Definition msgInterval : Z := 3000.
Definition wifiCheckInterval : Z := 10000.
Definition debounceDelay : Z := 50.

Definition ssid : string := "SEU_SSID".
Definition password : string := "SUA_SENHA_WIFI".
Definition CHAT_ID : string := "SEU_CHAT_ID_TELEGRAM".

(** [unsigned long] is 32 bits wide on the ESP32: subtraction wraps. *)
Definition ulong (z : Z) : Z := z mod 2 ^ 32.

(** [String(unsigned long)]: the decimal rendering of the value. *)
Definition String_of_ulong (z : Z) : string :=
  NilEmpty.string_of_uint (N.to_uint (Z.to_N z)).

Definition nl : string := String (ascii_of_nat 10) EmptyString.
(** [println] ends the line with carriage return and line feed. *)
Definition crlf : string := String (ascii_of_nat 13) nl.

(** ** Outgoing calls *)

Inductive Effect : Type :=
| SerialBegin (baud : Z)
| SerialPrint (text : string)
| PinModeInput (pin : Z)
| PinModeOutput (pin : Z)
| PinModeInputPullup (pin : Z)
| DigitalWrite (pin : Z) (level : bool)
| LittleFSBegin
| EnableReceive (pin : Z)
| ResetAvailable
| WiFiBegin (net pass : string)
| Delay (ms : Z)
| ConfigTime (gmtOffset daylightOffset : Z) (server : string)
| SetCACert
| GetUpdates
| SendMessage (chat text parse_mode : string)
| SendDocument (chat name : string)
| LogEvento (msg : string).

(** ** Globals and statics *)

Record Sys : Type := mkSys {
  sistemaAtivo : bool;
  alarmeDisparado : bool;
  lastMsgTime : Z;
  lastWiFiCheck : Z;
  wifiConectadoAnterior : bool;
  (* statics of checarBotao *)
  ultimoEstado : bool;
  ultimoDebounce : Z;
  (* level currently driven on RELAY_PIN *)
  relay : bool
}.

Definition set_sistemaAtivo (b : bool) (s : Sys) : Sys :=
  mkSys b (alarmeDisparado s) (lastMsgTime s) (lastWiFiCheck s)
        (wifiConectadoAnterior s) (ultimoEstado s) (ultimoDebounce s) (relay s).
Definition set_alarmeDisparado (b : bool) (s : Sys) : Sys :=
  mkSys (sistemaAtivo s) b (lastMsgTime s) (lastWiFiCheck s)
        (wifiConectadoAnterior s) (ultimoEstado s) (ultimoDebounce s) (relay s).
Definition set_lastMsgTime (t : Z) (s : Sys) : Sys :=
  mkSys (sistemaAtivo s) (alarmeDisparado s) t (lastWiFiCheck s)
        (wifiConectadoAnterior s) (ultimoEstado s) (ultimoDebounce s) (relay s).
Definition set_lastWiFiCheck (t : Z) (s : Sys) : Sys :=
  mkSys (sistemaAtivo s) (alarmeDisparado s) (lastMsgTime s) t
        (wifiConectadoAnterior s) (ultimoEstado s) (ultimoDebounce s) (relay s).
Definition set_wifiConectadoAnterior (b : bool) (s : Sys) : Sys :=
  mkSys (sistemaAtivo s) (alarmeDisparado s) (lastMsgTime s) (lastWiFiCheck s)
        b (ultimoEstado s) (ultimoDebounce s) (relay s).
Definition set_ultimoEstado (b : bool) (s : Sys) : Sys :=
  mkSys (sistemaAtivo s) (alarmeDisparado s) (lastMsgTime s) (lastWiFiCheck s)
        (wifiConectadoAnterior s) b (ultimoDebounce s) (relay s).
Definition set_ultimoDebounce (t : Z) (s : Sys) : Sys :=
  mkSys (sistemaAtivo s) (alarmeDisparado s) (lastMsgTime s) (lastWiFiCheck s)
        (wifiConectadoAnterior s) (ultimoEstado s) t (relay s).
Definition set_relay (b : bool) (s : Sys) : Sys :=
  mkSys (sistemaAtivo s) (alarmeDisparado s) (lastMsgTime s) (lastWiFiCheck s)
        (wifiConectadoAnterior s) (ultimoEstado s) (ultimoDebounce s) b.

(** The globals as their initialisers leave them.  The relay pin has not
    been driven yet; [r] is whatever level it floats at. *)
Definition boot (r : bool) : Sys :=
  mkSys false false 0 0 false HIGH 0 r.

(** ** Commands: a [void] function over the globals *)

Definition Cmd : Type := Sys -> Sys * list Effect.

Definition skip : Cmd := fun s => (s, []).
Definition emit (e : Effect) : Cmd := fun s => (s, [e]).
Definition assign (f : Sys -> Sys) : Cmd := fun s => (f s, []).
Definition seq (a b : Cmd) : Cmd :=
  fun s =>
    let r1 := a s in
    let r2 := b (fst r1) in
    (fst r2, (snd r1 ++ snd r2)%list).
Definition ifs (c : Sys -> bool) (a b : Cmd) : Cmd :=
  fun s => if c s then a s else b s.

Declare Scope cmd_scope.
Delimit Scope cmd_scope with cmd.
Bind Scope cmd_scope with Cmd.
Notation "a ;; b" := (seq a b) (at level 61, right associativity) : cmd_scope.
Notation "'IF' c 'THEN' a 'ELSE' b" := (ifs c a%cmd b%cmd)
  (at level 62, c at level 9, a at level 61, b at level 61) : cmd_scope.
Notation "'WHEN' c 'THEN' a" := (ifs c a%cmd skip)
  (at level 62, c at level 9, a at level 61) : cmd_scope.
Open Scope cmd_scope.

Definition state_of (c : Cmd) (s : Sys) : Sys := fst (c s).
Definition effects_of (c : Cmd) (s : Sys) : list Effect := snd (c s).

Fixpoint foreach {A : Type} (l : list A) (body : A -> Cmd) : Cmd :=
  match l with
  | [] => skip
  | x :: l' => body x ;; foreach l' body
  end.

(** ** Collaborator calls *)

Definition digitalWrite (pin : Z) (level : bool) : Cmd :=
  emit (DigitalWrite pin level) ;;
  (if pin =? RELAY_PIN then assign (set_relay level) else skip).

Definition sendMessage (chat text mode : string) : Cmd :=
  emit (SendMessage chat text mode).

(** [logEvento] only formats a line (timestamp, message) and writes it to
    the serial port and to the log file; it reads and writes no global.  One
    call is recorded as one [LogEvento] event carrying the message. *)
Definition logEvento (msg : string) : Cmd := emit (LogEvento msg).

Definition Serial_print (text : string) : Cmd := emit (SerialPrint text).
Definition Serial_println (text : string) : Cmd :=
  emit (SerialPrint (text ++ crlf)).

(** ** Alarm logic *)

(** [dispararAlarme()] *)
Definition dispararAlarme : Cmd :=
  digitalWrite RELAY_PIN HIGH ;;
  assign (set_alarmeDisparado true) ;;
  sendMessage CHAT_ID "⚠️ ALERTA! Movimento detectado! Sirene disparada!" "" ;;
  logEvento "Alarme efetivamente disparado (sirene + notificação).".

Definition msgDesarmado (origem : string) : string :=
  "✅ Sistema DESARMADO com sucesso pela origem: " ++ origem.

(** [desarmarSistema(String origem)] *)
Definition desarmarSistema (origem : string) : Cmd :=
  digitalWrite RELAY_PIN LOW ;;
  assign (set_alarmeDisparado false) ;;
  assign (set_sistemaAtivo false) ;;
  sendMessage CHAT_ID (msgDesarmado origem) "" ;;
  logEvento (msgDesarmado origem).

Definition msgArmado (origem : string) : string :=
  "🔒 Sistema ARMADO com sucesso pela origem: " ++ origem.

Definition msgJaArmado : string := "ℹ️ O sistema já se encontra armado.".

(** [armarSistema(String origem)] *)
Definition armarSistema (origem : string) : Cmd :=
  IF (fun s => negb (sistemaAtivo s)) THEN
    assign (set_sistemaAtivo true) ;;
    assign (set_alarmeDisparado false) ;;
    sendMessage CHAT_ID (msgArmado origem) "" ;;
    logEvento (msgArmado origem)
  ELSE
    sendMessage CHAT_ID msgJaArmado "".

(** ** Handlers *)

(** What [LittleFS.open(LOG_FILE, "r")] gives: no file, or a file of some
    size. *)
Definition LogFile : Type := option Z.

(** [enviarLogsTelegram()] *)
Definition enviarLogsTelegram (f : LogFile) : Cmd :=
  match f with
  | None =>
      sendMessage CHAT_ID "Erro: Não foi possível encontrar o arquivo de log." ""
  | Some size =>
      if size =? 0 then sendMessage CHAT_ID "O arquivo de log está vazio." ""
      else emit (SendDocument CHAT_ID "log_sentinela.txt")
  end.

(** A received chat message: its text, and the log file as a [/logs]
    request arriving with it would find it. *)
Record TelegramMessage : Type := mkMsg {
  text : string;
  log_file : LogFile
}.

Definition statusResp (s : Sys) : string :=
  "📊 *Status do Sentinela*" ++ nl ++ nl ++ "*Sistema:* "
    ++ (if sistemaAtivo s then "ARMADO" else "DESARMADO")
    ++ nl ++ "*Sirene Disparada:* "
    ++ (if alarmeDisparado s then "SIM" else "NÃO").

(** [handleNewMessage(TelegramMessage msg)] *)
Definition handleNewMessage (msg : TelegramMessage) : Cmd :=
  Serial_print ("Comando recebido do Telegram: " ++ text msg ++ nl) ;;
  (if String.eqb (text msg) "/armar" then armarSistema "Telegram"
   else if String.eqb (text msg) "/desarmar" then desarmarSistema "Telegram"
   else if String.eqb (text msg) "/status" then
     (fun s => sendMessage CHAT_ID (statusResp s) "Markdown" s)
   else if String.eqb (text msg) "/logs" then enviarLogsTelegram (log_file msg)
   else sendMessage CHAT_ID
     "Comando não reconhecido. Use /armar, /desarmar, /status ou /logs." "").

Definition msgRFDesconhecido (code : Z) : string :=
  "Código RF desconhecido recebido: " ++ String_of_ulong code.

(** [handleRF(unsigned long code)] *)
Definition handleRF (code : Z) : Cmd :=
  if code =? CODE_ARM then armarSistema "Controle RF"
  else if code =? CODE_DISARM then desarmarSistema "Controle RF"
  else logEvento (msgRFDesconhecido code).

(** ** Polling *)

(** The test [millis() - last > interval] of both rate-limited polls;
    [now] is what [millis()] returned.  The subtraction is on
    [unsigned long]. *)
Definition elapsed_gt (now last interval : Z) : bool :=
  interval <? ulong (now - last).

(** The wait loop of [conectaWiFi]: each element of [polls] is what one
    evaluation of the loop condition reads, [WiFi.status() == WL_CONNECTED]
    and [millis()].  The loop ends at the first evaluation that finds the
    link up or 15 s gone; a list that ends before that ends the wait. *)
Fixpoint esperaWiFi (startAttemptTime : Z) (polls : list (bool * Z)) : Cmd :=
  match polls with
  | [] => skip
  | (connected, now) :: rest =>
      if negb connected && (ulong (now - startAttemptTime) <? 15000) then
        emit (Delay 500) ;; Serial_print "." ;;
        esperaWiFi startAttemptTime rest
      else skip
  end.

(** What one call of [conectaWiFi] reads from the environment. *)
Record WiFiAttempt : Type := mkAttempt {
  connected_on_entry : bool;        (* WiFi.status() == WL_CONNECTED, first test *)
  startAttemptTime : Z;             (* millis() before the wait loop *)
  polls : list (bool * Z);          (* the loop condition, per evaluation *)
  connected_on_exit : bool          (* WiFi.status() == WL_CONNECTED, after the loop *)
}.

(** [conectaWiFi()] *)
Definition conectaWiFi (a : WiFiAttempt) : Cmd :=
  if negb (connected_on_entry a) then
    emit (WiFiBegin ssid password) ;;
    Serial_print "Conectando ao WiFi" ;;
    esperaWiFi (startAttemptTime a) (polls a) ;;
    Serial_println "" ;;
    (if connected_on_exit a then
       Serial_println "WiFi conectado com sucesso." ;;
       logEvento "WiFi conectado." ;;
       assign (set_wifiConectadoAnterior true)
     else
       Serial_println "Falha ao conectar no WiFi." ;;
       logEvento "Falha na conexão WiFi.")
  else skip.

(** What one call of [checarWiFi] reads. *)
Record WiFiCheck : Type := mkWiFiCheck {
  wifi_now : Z;                     (* millis() in the test *)
  wifi_now_set : Z;                 (* millis() stored into lastWiFiCheck *)
  wifi_connected : bool;            (* WiFi.status() == WL_CONNECTED *)
  wifi_attempt : WiFiAttempt
}.

(** [checarWiFi()] *)
Definition checarWiFi (i : WiFiCheck) : Cmd :=
  WHEN (fun s => elapsed_gt (wifi_now i) (lastWiFiCheck s) wifiCheckInterval) THEN
    assign (set_lastWiFiCheck (wifi_now_set i)) ;;
    (if negb (wifi_connected i) then
       (WHEN wifiConectadoAnterior THEN logEvento "Conexão Wi-Fi perdida.") ;;
       assign (set_wifiConectadoAnterior false) ;;
       conectaWiFi (wifi_attempt i)
     else
       (WHEN (fun s => negb (wifiConectadoAnterior s)) THEN
          logEvento "Conexão Wi-Fi restabelecida." ;;
          sendMessage CHAT_ID "✅ Sentinela: Conexão Wi-Fi restabelecida!" "") ;;
       assign (set_wifiConectadoAnterior true)).

(** What one call of [checarTelegram] reads. *)
Record TelegramPoll : Type := mkTelegramPoll {
  tg_now : Z;                       (* millis() in the test *)
  tg_connected : bool;              (* WiFi.status() == WL_CONNECTED *)
  tg_messages : list TelegramMessage; (* bot.messages[0 .. numNewMessages-1] *)
  tg_now_set : Z                    (* millis() stored into lastMsgTime *)
}.

(** [checarTelegram()] *)
Definition checarTelegram (i : TelegramPoll) : Cmd :=
  WHEN (fun s => elapsed_gt (tg_now i) (lastMsgTime s) msgInterval
                 && tg_connected i) THEN
    emit GetUpdates ;;
    foreach (tg_messages i) handleNewMessage ;;
    assign (set_lastMsgTime (tg_now_set i)).

(** [checarRF()]; [rx] is [Some value] when [rfReceiver.available()]. *)
Definition checarRF (rx : option Z) : Cmd :=
  match rx with
  | Some value =>
      Serial_print ("Sinal RF recebido: " ++ String_of_ulong value ++ nl) ;;
      handleRF value ;;
      emit ResetAvailable
  | None => skip
  end.

(** What one call of [checarBotao] reads. *)
Record ButtonSample : Type := mkButtonSample {
  leitura : bool;                   (* digitalRead(BUTTON_PIN) *)
  btn_now_change : Z;               (* millis() stored into ultimoDebounce *)
  btn_now : Z                       (* millis() in the stability test *)
}.

(** [checarBotao()] *)
Definition checarBotao (i : ButtonSample) : Cmd :=
  (WHEN (fun s => negb (Bool.eqb (leitura i) (ultimoEstado s))) THEN
     assign (set_ultimoDebounce (btn_now_change i))) ;;
  (WHEN (fun s => elapsed_gt (btn_now i) (ultimoDebounce s) debounceDelay) THEN
     (WHEN (fun s => Bool.eqb (leitura i) LOW && Bool.eqb (ultimoEstado s) HIGH) THEN
        (IF sistemaAtivo THEN desarmarSistema "Botão físico"
         ELSE armarSistema "Botão físico"))) ;;
  assign (set_ultimoEstado (leitura i)).

(** The motion clause at the end of [loop()]; [pir] is
    [digitalRead(PIR_PIN) == HIGH]. *)
Definition checarMovimento (pir : bool) : Cmd :=
  WHEN (fun s => sistemaAtivo s && negb (alarmeDisparado s) && pir) THEN
    logEvento "Movimento detectado, disparando alarme" ;;
    dispararAlarme.

(** ** setup and loop *)

(** [setup()] *)
Definition setup (fs_ok : bool) (a : WiFiAttempt) : Cmd :=
  emit (SerialBegin 115200) ;;
  emit (PinModeInput PIR_PIN) ;;
  emit (PinModeOutput RELAY_PIN) ;;
  digitalWrite RELAY_PIN LOW ;;
  emit (PinModeInputPullup BUTTON_PIN) ;;
  emit LittleFSBegin ;;
  (if negb fs_ok then Serial_println "Erro crítico ao iniciar o LittleFS."
   else skip) ;;
  emit (EnableReceive RF_RECEIVER_PIN) ;;
  conectaWiFi a ;;
  emit (ConfigTime (-3 * 3600) 0 "pool.ntp.org") ;;
  emit SetCACert ;;
  logEvento "Sistema iniciado e configurado." ;;
  Serial_println "Setup concluído. Sentinela operacional.".

(** What one pass of [loop] reads. *)
Record LoopInput : Type := mkLoopInput {
  in_wifi : WiFiCheck;
  in_telegram : TelegramPoll;
  in_rf : option Z;
  in_button : ButtonSample;
  in_pir : bool
}.

(** [loop()] *)
Definition loop (i : LoopInput) : Cmd :=
  checarWiFi (in_wifi i) ;;
  checarTelegram (in_telegram i) ;;
  checarRF (in_rf i) ;;
  checarBotao (in_button i) ;;
  checarMovimento (in_pir i).

(** The state after [setup] and any number of passes of [loop]. *)
Definition run (r fs_ok : bool) (a : WiFiAttempt) (ins : list LoopInput)
  : Sys * list Effect :=
  (setup fs_ok a ;; foreach ins loop) (boot r).


(** ** Runs

    The calls [loop] makes, one constructor per call site, each with what it
    reads.  A chat message handled inside [checarTelegram] is an operation
    of its own, so that the states between two messages of one poll are
    states of a run too. *)

Inductive Op : Type :=
| OpWiFi (i : WiFiCheck)
| OpTelegram (i : TelegramPoll)
| OpMessage (m : TelegramMessage)
| OpRF (rx : option Z)
| OpButton (i : ButtonSample)
| OpMotion (pir : bool)
| OpLoop (i : LoopInput).

Definition exec (op : Op) : Cmd :=
  match op with
  | OpWiFi i => checarWiFi i
  | OpTelegram i => checarTelegram i
  | OpMessage m => handleNewMessage m
  | OpRF rx => checarRF rx
  | OpButton i => checarBotao i
  | OpMotion pir => checarMovimento pir
  | OpLoop i => loop i
  end.

Inductive reachable : Sys -> Prop :=
| reach_setup (r fs_ok : bool) (a : WiFiAttempt) :
    reachable (state_of (setup fs_ok a) (boot r))
| reach_op (op : Op) (s : Sys) :
    reachable s -> reachable (state_of (exec op) s).

(** ** Reading an effect list *)

Definition is_ActivateSiren (e : Effect) : bool :=
  match e with
  | DigitalWrite pin level => (pin =? RELAY_PIN) && level
  | _ => false
  end.

Definition is_DeactivateSiren (e : Effect) : bool :=
  match e with
  | DigitalWrite pin level => (pin =? RELAY_PIN) && negb level
  | _ => false
  end.

Definition is_siren (e : Effect) : bool :=
  is_ActivateSiren e || is_DeactivateSiren e.

Definition is_Notify (e : Effect) : bool :=
  match e with
  | SendMessage _ _ _ | SendDocument _ _ => true
  | _ => false
  end.

Definition is_LogLine (e : Effect) : bool :=
  match e with
  | LogEvento _ => true
  | _ => false
  end.

Definition is_GetUpdates (e : Effect) : bool :=
  match e with
  | GetUpdates => true
  | _ => false
  end.

Definition count (p : Effect -> bool) (l : list Effect) : nat :=
  List.length (filter p l).

(** An effect with the text of a notification or log line blanked: what is
    left is which call was made, on which pin or chat. *)
Definition shape (e : Effect) : Effect :=
  match e with
  | SendMessage chat _ mode => SendMessage chat "" mode
  | LogEvento _ => LogEvento ""
  | e' => e'
  end.

(** The two flags and the relay level. *)
Definition flags (s : Sys) : bool * bool * bool :=
  (sistemaAtivo s, alarmeDisparado s, relay s).

(** The safety invariant of the two flags and the relay. *)
Definition Inv (s : Sys) : Prop :=
  (alarmeDisparado s = true -> sistemaAtivo s = true) /\
  relay s = alarmeDisparado s.

(** ** Sample runs *)

Definition wifi_ok : WiFiAttempt :=
  mkAttempt false 0 [(false, 500); (true, 1000)] true.

(** After [setup]; then armed from the chat; then motion; then disarmed by
    the remote control. *)
Definition s_setup : Sys := state_of (setup true wifi_ok) (boot false).
Definition s_armed : Sys :=
  state_of (exec (OpMessage (mkMsg "/armar" None))) s_setup.
Definition s_triggered : Sys := state_of (exec (OpMotion true)) s_armed.
Definition s_disarmed : Sys :=
  state_of (exec (OpRF (Some CODE_DISARM))) s_triggered.

(** The calls of one triggering, in order: the clause of [loop] logs, then
    [dispararAlarme] drives the relay, notifies and logs. *)
Definition motion_effects : list Effect :=
  [LogEvento "Movimento detectado, disparando alarme";
   DigitalWrite RELAY_PIN HIGH;
   SendMessage CHAT_ID "⚠️ ALERTA! Movimento detectado! Sirene disparada!" "";
   LogEvento "Alarme efetivamente disparado (sirene + notificação)."].

(** The two clock reads of one [checarBotao] call lie at most the debounce
    delay apart.  Nothing runs between them but a comparison and a store, so
    on the device they are the same millisecond or the next. *)
Definition reads_close (i : ButtonSample) : Prop :=
  ulong (btn_now i - btn_now_change i) <= debounceDelay.

(** The button sampled at time [t], both clock reads returning [t]. *)
Definition sample_at (level : bool) (t : Z) : ButtonSample :=
  mkButtonSample level t t.

(** One clean press: released at 0 ms, pressed from 10 ms on and held,
    sampled every 10 ms up to 200 ms. *)
Definition clean_press : list ButtonSample :=
  sample_at HIGH 0 ::
  map (fun k => sample_at LOW (10 * Z.of_nat k)) (List.seq 1 20).

(** A command none of whose calls satisfies [p], whatever the state. *)
Definition quiet (p : Effect -> bool) (c : Cmd) : Prop :=
  forall s, count p (effects_of c s) = 0%nat.

(** The clock value [now] lies at most [interval] ms after [last], on the
    32-bit counter. *)
Definition within (interval last now : Z) : Prop :=
  exists d, 0 <= d <= interval /\ now = ulong (last + d).

(** The timers of the two rate-limited polls. *)
Definition timers (s : Sys) : Z * Z := (lastMsgTime s, lastWiFiCheck s).

(** A Telegram poll that finds Wi-Fi up and no message, and one that finds
    Wi-Fi down, both at clock value [t]. *)
Definition poll_up (t : Z) : TelegramPoll := mkTelegramPoll t true [] t.
Definition poll_down (t : Z) : TelegramPoll := mkTelegramPoll t false [] t.

(** After [setup], a Telegram poll at 4000 ms with Wi-Fi up. *)
Definition s_polled : Sys := state_of (checarTelegram (poll_up 4000)) s_setup.

(** A Wi-Fi check at clock value [t] that finds the link up. *)
Definition wifi_check_up (t : Z) : WiFiCheck := mkWiFiCheck t t true wifi_ok.

(** A pass of [loop] at clock value [t]: link up, no message, no radio
    code, button released, no motion. *)
Definition pass_at (t : Z) : LoopInput :=
  mkLoopInput (wifi_check_up t) (poll_up t) None (sample_at HIGH t) false.

(** ** The logger

    [timestamp()] and [logEvento()] talk to the clock, the serial port and
    the file system only.  Their calls are a type of their own. *)

Definition LOG_FILE : string := "/log_sentinela.txt".

(** What [localtime] and [strftime] give [timestamp()]: the [tm_year] field
    (years since 1900) and the text [strftime] writes for the format
    ["%Y-%m-%d %H:%M:%S"]. *)
Record LocalTime : Type := mkLocalTime {
  tm_year : Z;
  formatted : string
}.

(** [timestamp()] *)
Definition timestamp (now : LocalTime) : string :=
  if (2020 - 1900) <? tm_year now then formatted now
  else "sincronizando relogio...".

Inductive LogCall : Type :=
| LogSerialPrint (line : string)
| LogFileOpenAppend (path : string)
| LogFilePrint (line : string)
| LogFileClose.

(** [logEvento(const String& msg)]; [opened] is whether
    [LittleFS.open(LOG_FILE, "a")] gave a file. *)
Definition logEvento_calls (now : LocalTime) (opened : bool) (msg : string)
  : list LogCall :=
  let logMsg := "[" ++ timestamp now ++ "] " ++ msg ++ nl in
  LogSerialPrint logMsg ::
  LogFileOpenAppend LOG_FILE ::
  (if negb opened
   then [LogSerialPrint ("Erro ao abrir arquivo de log para escrita." ++ crlf)]
   else [LogFilePrint logMsg; LogFileClose]).

Definition is_LogFilePrint (c : LogCall) : bool :=
  match c with
  | LogFilePrint _ => true
  | _ => false
  end.

(** ** More readers of an effect list *)

Definition msgAlerta : string :=
  "⚠️ ALERTA! Movimento detectado! Sirene disparada!".

Definition is_alert (e : Effect) : bool :=
  match e with
  | SendMessage _ txt _ => String.eqb txt msgAlerta
  | _ => false
  end.

Definition is_Delay (e : Effect) : bool :=
  match e with
  | Delay _ => true
  | _ => false
  end.

Definition is_ResetAvailable (e : Effect) : bool :=
  match e with
  | ResetAvailable => true
  | _ => false
  end.

(** The command a chat message carries: [Some true] for [/armar],
    [Some false] for [/desarmar], [None] for anything else. *)
Definition cmd_of (m : TelegramMessage) : option bool :=
  if String.eqb (text m) "/armar" then Some true
  else if String.eqb (text m) "/desarmar" then Some false
  else None.

(** The last arm or disarm command of a batch, if it has one. *)
Fixpoint last_cmd (l : list TelegramMessage) : option bool :=
  match l with
  | [] => None
  | m :: l' =>
      match last_cmd l' with
      | Some b => Some b
      | None => cmd_of m
      end
  end.

(** The clock seen by the wait loop of [conectaWiFi] moves on by at least
    the 500 ms of [delay(500)] per turn: the [k]-th evaluation of the loop
    condition, counted from 0, reads a value at least [500 * k] ms after
    [start] (and less than a full turn of the counter). *)
Fixpoint advancing (start : Z) (k : nat) (l : list (bool * Z)) : Prop :=
  match l with
  | [] => True
  | (_, now) :: rest =>
      (exists t, 500 * Z.of_nat k <= t < 2 ^ 32 /\ now = ulong (start + t)) /\
      advancing start (S k) rest
  end.

(** A reconnection attempt during which the link never comes up: the loop
    condition is evaluated every 500 ms, 40 times over. *)
Definition wifi_stays_down : WiFiAttempt :=
  mkAttempt false 0
    (map (fun k => (false, 500 * Z.of_nat k)) (List.seq 0 40)) false.

(** Reading a decimal rendering back: the number a string of digits
    denotes, if it is one. *)
Definition ulong_of_String (s : string) : option Z :=
  option_map (fun d => Z.of_N (N.of_uint d)) (NilEmpty.uint_of_string s).

(** An operation that carries no disarm command: no [/desarmar] among its
    chat messages, no [CODE_DISARM] from the radio, and a button call whose
    two clock reads are within the debounce delay of each other (so that no
    press is registered). *)
Definition no_disarm_in (op : Op) : Prop :=
  match op with
  | OpWiFi _ => True
  | OpTelegram i => Forall (fun m => text m <> "/desarmar") (tg_messages i)
  | OpMessage m => text m <> "/desarmar"
  | OpRF rx => rx <> Some CODE_DISARM
  | OpButton i => reads_close i
  | OpMotion _ => True
  | OpLoop i =>
      Forall (fun m => text m <> "/desarmar") (tg_messages (in_telegram i)) /\
      in_rf i <> Some CODE_DISARM /\
      reads_close (in_button i)
  end.

(** A command that, run on a triggered system, leaves the flags and the
    relay as they are and does not write the relay LOW. *)
Definition steady (c : Cmd) : Prop :=
  forall s, Inv s -> alarmeDisparado s = true ->
    flags (state_of c s) = flags s /\
    count is_DeactivateSiren (effects_of c s) = 0%nat.

(** A command that leaves the flags and the relay alone. *)
Definition neutral (c : Cmd) : Prop :=
  forall s, flags (state_of c s) = flags s.

(** A command that, run on a triggered system, either leaves it triggered
    or writes the relay LOW. *)
Definition siren_rule (c : Cmd) : Prop :=
  forall s, Inv s -> alarmeDisparado s = true ->
    alarmeDisparado (state_of c s) = true \/
    (1 <= count is_DeactivateSiren (effects_of c s))%nat.

(** A command that writes the relay HIGH as often as it sends the alert. *)
Definition balanced (c : Cmd) : Prop :=
  forall s, count is_ActivateSiren (effects_of c s)
            = count is_alert (effects_of c s).

(** ** Equations of the alarm functions *)

Arguments msgArmado : simpl never.
Arguments msgDesarmado : simpl never.
Arguments msgRFDesconhecido : simpl never.
Arguments statusResp : simpl never.
Arguments String.append : simpl never.
Arguments ulong : simpl never.
Arguments elapsed_gt : simpl never.

Lemma seq_state (a b : Cmd) (s : Sys) :
  state_of (a ;; b) s = state_of b (state_of a s).
Proof. reflexivity. Qed.

Lemma seq_effects (a b : Cmd) (s : Sys) :
  effects_of (a ;; b) s = (effects_of a s ++ effects_of b (state_of a s))%list.
Proof. reflexivity. Qed.

Lemma dispararAlarme_eq (s : Sys) :
  dispararAlarme s =
  (set_alarmeDisparado true (set_relay HIGH s),
   [DigitalWrite RELAY_PIN HIGH;
    SendMessage CHAT_ID "⚠️ ALERTA! Movimento detectado! Sirene disparada!" "";
    LogEvento "Alarme efetivamente disparado (sirene + notificação)."]).
Proof. reflexivity. Qed.

Lemma desarmarSistema_eq (origem : string) (s : Sys) :
  desarmarSistema origem s =
  (set_sistemaAtivo false (set_alarmeDisparado false (set_relay LOW s)),
   [DigitalWrite RELAY_PIN LOW;
    SendMessage CHAT_ID (msgDesarmado origem) "";
    LogEvento (msgDesarmado origem)]).
Proof. reflexivity. Qed.

Lemma armarSistema_disarmed (origem : string) (s : Sys) :
  sistemaAtivo s = false ->
  armarSistema origem s =
  (set_alarmeDisparado false (set_sistemaAtivo true s),
   [SendMessage CHAT_ID (msgArmado origem) ""; LogEvento (msgArmado origem)]).
Proof. intros H. unfold armarSistema, ifs. rewrite H. reflexivity. Qed.

Lemma armarSistema_armed (origem : string) (s : Sys) :
  sistemaAtivo s = true ->
  armarSistema origem s = (s, [SendMessage CHAT_ID msgJaArmado ""]).
Proof. intros H. unfold armarSistema, ifs. rewrite H. reflexivity. Qed.

(** ** Every operation keeps the invariant *)

Lemma Inv_armarSistema (o : string) (s : Sys) :
  Inv s -> Inv (state_of (armarSistema o) s).
Proof.
  unfold Inv, state_of. intros [Ha Hr].
  destruct (sistemaAtivo s) eqn:E.
  - rewrite armarSistema_armed by assumption. cbn. rewrite E. auto.
  - rewrite armarSistema_disarmed by assumption. cbn.
    split; [discriminate|].
    rewrite Hr. destruct (alarmeDisparado s); [|reflexivity].
    discriminate Ha; reflexivity.
Qed.

Lemma Inv_desarmarSistema (o : string) (s : Sys) :
  Inv (state_of (desarmarSistema o) s).
Proof. unfold Inv, state_of. rewrite desarmarSistema_eq. cbn. auto. Qed.

Lemma Inv_checarMovimento (pir : bool) (s : Sys) :
  Inv s -> Inv (state_of (checarMovimento pir) s).
Proof.
  unfold Inv, state_of, checarMovimento, ifs. intros [Ha Hr].
  destruct (sistemaAtivo s) eqn:E, (alarmeDisparado s) eqn:E', pir; cbn;
    rewrite ?E, ?E'; auto.
Qed.

Lemma Inv_flags (s s' : Sys) :
  flags s' = flags s -> Inv s -> Inv s'.
Proof.
  unfold flags, Inv. intros H. injection H as H1 H2 H3.
  rewrite H1, H2, H3. auto.
Qed.

Lemma esperaWiFi_state (t : Z) (l : list (bool * Z)) (s : Sys) :
  state_of (esperaWiFi t l) s = s.
Proof.
  induction l as [|[c now] l IH]; cbn; [reflexivity|].
  destruct (negb c && (ulong (now - t) <? 15000)); [|reflexivity].
  rewrite !seq_state. exact IH.
Qed.

Lemma conectaWiFi_flags (a : WiFiAttempt) (s : Sys) :
  flags (state_of (conectaWiFi a) s) = flags s.
Proof.
  unfold conectaWiFi.
  destruct (connected_on_entry a); cbn [negb]; [reflexivity|].
  rewrite !seq_state, esperaWiFi_state.
  destruct (connected_on_exit a); reflexivity.
Qed.

Lemma conectaWiFi_lastWiFiCheck (a : WiFiAttempt) (s : Sys) :
  lastWiFiCheck (state_of (conectaWiFi a) s) = lastWiFiCheck s.
Proof.
  unfold conectaWiFi.
  destruct (connected_on_entry a); cbn [negb]; [reflexivity|].
  rewrite !seq_state, esperaWiFi_state.
  destruct (connected_on_exit a); reflexivity.
Qed.

Lemma conectaWiFi_lastMsgTime (a : WiFiAttempt) (s : Sys) :
  lastMsgTime (state_of (conectaWiFi a) s) = lastMsgTime s.
Proof.
  unfold conectaWiFi.
  destruct (connected_on_entry a); cbn [negb]; [reflexivity|].
  rewrite !seq_state, esperaWiFi_state.
  destruct (connected_on_exit a); reflexivity.
Qed.

Lemma checarWiFi_flags (i : WiFiCheck) (s : Sys) :
  flags (state_of (checarWiFi i) s) = flags s.
Proof.
  unfold checarWiFi, state_of, ifs at 1.
  destruct (elapsed_gt _ _ _); [|reflexivity].
  destruct (wifi_connected i); cbn.
  - unfold seq, ifs. cbn. destruct (wifiConectadoAnterior s); reflexivity.
  - change (flags (state_of (conectaWiFi (wifi_attempt i))
       (set_wifiConectadoAnterior false
          (state_of (WHEN wifiConectadoAnterior THEN
                       logEvento "Conexão Wi-Fi perdida.")
             (set_lastWiFiCheck (wifi_now_set i) s)))) = flags s).
    rewrite conectaWiFi_flags. unfold state_of, ifs. cbn.
    destruct (wifiConectadoAnterior s); reflexivity.
Qed.

Lemma Inv_setup (r fs_ok : bool) (a : WiFiAttempt) :
  Inv (state_of (setup fs_ok a) (boot r)).
Proof.
  apply Inv_flags with (s := boot false); [|split; [discriminate|reflexivity]].
  unfold setup. rewrite !seq_state.
  change (state_of (emit (SerialBegin 115200)) (boot r)) with (boot r).
  remember (state_of (conectaWiFi a)) as f.
  destruct fs_ok; cbn; subst f; rewrite conectaWiFi_flags; reflexivity.
Qed.

Lemma Inv_handleNewMessage (m : TelegramMessage) (s : Sys) :
  Inv s -> Inv (state_of (handleNewMessage m) s).
Proof.
  intros H. unfold handleNewMessage. rewrite seq_state.
  change (state_of (Serial_print _) s) with s.
  destruct (String.eqb (text m) "/armar"); [now apply Inv_armarSistema|].
  destruct (String.eqb (text m) "/desarmar"); [now apply Inv_desarmarSistema|].
  destruct (String.eqb (text m) "/status"); [exact H|].
  destruct (String.eqb (text m) "/logs"); [|exact H].
  unfold enviarLogsTelegram. destruct (log_file m) as [size|]; [|exact H].
  destruct (size =? 0); exact H.
Qed.

Lemma Inv_handleRF (code : Z) (s : Sys) :
  Inv s -> Inv (state_of (handleRF code) s).
Proof.
  intros H. unfold handleRF.
  destruct (code =? CODE_ARM); [now apply Inv_armarSistema|].
  destruct (code =? CODE_DISARM); [now apply Inv_desarmarSistema|exact H].
Qed.

Lemma Inv_checarRF (rx : option Z) (s : Sys) :
  Inv s -> Inv (state_of (checarRF rx) s).
Proof.
  intros H. destruct rx as [value|]; [|exact H].
  unfold checarRF. rewrite !seq_state.
  change (state_of (Serial_print _) s) with s.
  apply Inv_flags with (s := state_of (handleRF value) s); [reflexivity|].
  now apply Inv_handleRF.
Qed.

Lemma Inv_foreach {A : Type} (body : A -> Cmd) (l : list A) :
  (forall x s, Inv s -> Inv (state_of (body x) s)) ->
  forall s, Inv s -> Inv (state_of (foreach l body) s).
Proof.
  intros Hb. induction l as [|x l IH]; intros s H; cbn [foreach]; [exact H|].
  rewrite seq_state. apply IH, Hb, H.
Qed.

Lemma Inv_checarTelegram (i : TelegramPoll) (s : Sys) :
  Inv s -> Inv (state_of (checarTelegram i) s).
Proof.
  intros H. unfold checarTelegram, state_of at 1, ifs.
  destruct (elapsed_gt _ _ _ && tg_connected i); [|exact H].
  fold (state_of (emit GetUpdates ;; foreach (tg_messages i) handleNewMessage ;;
                  assign (set_lastMsgTime (tg_now_set i))) s).
  rewrite !seq_state.
  apply Inv_flags with
    (s := state_of (foreach (tg_messages i) handleNewMessage) s);
    [reflexivity|].
  apply Inv_foreach; [exact Inv_handleNewMessage|exact H].
Qed.

Lemma Inv_checarBotao (i : ButtonSample) (s : Sys) :
  Inv s -> Inv (state_of (checarBotao i) s).
Proof.
  intros H. unfold checarBotao. rewrite !seq_state.
  set (s1 := state_of (WHEN _ THEN _) s).
  assert (H1 : Inv s1).
  { apply Inv_flags with (s := s); [|exact H].
    unfold s1, state_of, ifs. destruct (negb _); reflexivity. }
  clearbody s1.
  set (s2 := state_of (WHEN _ THEN _) s1).
  assert (H2 : Inv s2).
  { unfold s2, state_of, ifs.
    destruct (elapsed_gt _ _ _); [|exact H1].
    destruct (_ && _); [|exact H1].
    destruct (sistemaAtivo s1);
      [ exact (Inv_desarmarSistema "Botão físico" s1)
      | exact (Inv_armarSistema "Botão físico" s1 H1) ]. }
  apply Inv_flags with (s := s2); [reflexivity|exact H2].
Qed.

Lemma Inv_loop (i : LoopInput) (s : Sys) :
  Inv s -> Inv (state_of (loop i) s).
Proof.
  intros H. unfold loop. rewrite !seq_state.
  apply Inv_checarMovimento, Inv_checarBotao, Inv_checarRF, Inv_checarTelegram.
  apply Inv_flags with (s := s); [apply checarWiFi_flags|exact H].
Qed.

Lemma Inv_exec (op : Op) (s : Sys) :
  Inv s -> Inv (state_of (exec op) s).
Proof.
  intros H. destruct op; cbn [exec].
  - apply Inv_flags with (s := s); [apply checarWiFi_flags|exact H].
  - now apply Inv_checarTelegram.
  - now apply Inv_handleNewMessage.
  - now apply Inv_checarRF.
  - now apply Inv_checarBotao.
  - now apply Inv_checarMovimento.
  - now apply Inv_loop.
Qed.

Lemma reachable_Inv (s : Sys) : reachable s -> Inv s.
Proof.
  induction 1 as [r fs_ok a|op s _ IH]; [apply Inv_setup|now apply Inv_exec].
Qed.

Lemma reachable_s_setup : reachable s_setup.
Proof. apply reach_setup. Qed.

Lemma reachable_s_armed : reachable s_armed.
Proof. apply reach_op, reachable_s_setup. Qed.

Lemma reachable_s_triggered : reachable s_triggered.
Proof. apply reach_op, reachable_s_armed. Qed.

Lemma reachable_s_disarmed : reachable s_disarmed.
Proof. apply reach_op, reachable_s_triggered. Qed.

Lemma reachable_run (r fs_ok : bool) (a : WiFiAttempt) (ins : list LoopInput) :
  reachable (fst (run r fs_ok a ins)).
Proof.
  unfold run. change (reachable (state_of (setup fs_ok a ;; foreach ins loop) (boot r))).
  rewrite seq_state.
  generalize (reach_setup r fs_ok a).
  generalize (state_of (setup fs_ok a) (boot r)).
  induction ins as [|i ins IH]; intros s Hs; cbn [foreach]; [exact Hs|].
  rewrite seq_state. apply IH. exact (reach_op (OpLoop i) s Hs).
Qed.

(** ** The state machine *)

(** C1. In every state of a run -- after [setup], and after each call that
    [loop] makes, whatever the environment feeds it -- [alarmeDisparado]
    (triggered) implies [sistemaAtivo] (armed); so it does after [setup] and
    any number of passes of [loop].  In particular an operation
    that leaves the system disarmed leaves it untriggered, and an operation
    that sets the triggered flag finds the system armed and leaves it
    armed. *)
Theorem triggered_implies_armed :
  (forall s, reachable s ->
     alarmeDisparado s = true -> sistemaAtivo s = true) /\
  (forall r fs_ok a ins,
     alarmeDisparado (fst (run r fs_ok a ins)) = true ->
     sistemaAtivo (fst (run r fs_ok a ins)) = true) /\
  (forall op s, reachable s ->
     sistemaAtivo (state_of (exec op) s) = false ->
     alarmeDisparado (state_of (exec op) s) = false) /\
  (forall pir s, reachable s ->
     alarmeDisparado s = false ->
     alarmeDisparado (state_of (checarMovimento pir) s) = true ->
     sistemaAtivo s = true /\
     sistemaAtivo (state_of (checarMovimento pir) s) = true).
Proof.
  split; [|split; [|split]].
  - intros s Hs. exact (proj1 (reachable_Inv s Hs)).
  - intros r fs_ok a ins.
    exact (proj1 (reachable_Inv _ (reachable_run r fs_ok a ins))).
  - intros op s Hs Hoff.
    destruct (reachable_Inv _ (reach_op op s Hs)) as [Himp _].
    destruct (alarmeDisparado (state_of (exec op) s)); [|reflexivity].
    rewrite Himp in Hoff by reflexivity. discriminate Hoff.
  - intros pir s Hs Hoff Hon.
    unfold state_of, checarMovimento, ifs in *.
    destruct (sistemaAtivo s) eqn:E; cbn [andb] in *.
    + rewrite Hoff in *. destruct pir; cbn in *; auto.
    + cbn in Hon. congruence.
Qed.

Lemma triggered_implies_armed_witness :
  reachable s_triggered /\ alarmeDisparado s_triggered = true /\
  sistemaAtivo s_triggered = true.
Proof.
  split; [exact reachable_s_triggered|].
  split; [reflexivity|].
  apply (proj1 triggered_implies_armed).
  - exact reachable_s_triggered.
  - reflexivity.
Defined.

(** C10. In every state of a run the level driven on the relay pin is the
    value of [alarmeDisparado]: HIGH exactly when the alarm is triggered.
    [setup] leaves both off whatever the pin floated at, triggering sets
    both, disarming clears both, and arming a disarmed system clears the
    flag while the relay is LOW. *)
Theorem relay_follows_alarmeDisparado :
  (forall s, reachable s -> relay s = alarmeDisparado s) /\
  (forall r fs_ok a,
     relay (state_of (setup fs_ok a) (boot r)) = LOW /\
     alarmeDisparado (state_of (setup fs_ok a) (boot r)) = false) /\
  (forall s, relay (state_of dispararAlarme s) = HIGH /\
             alarmeDisparado (state_of dispararAlarme s) = true) /\
  (forall o s, relay (state_of (desarmarSistema o) s) = LOW /\
               alarmeDisparado (state_of (desarmarSistema o) s) = false) /\
  (forall o s, reachable s -> sistemaAtivo s = false ->
     relay (state_of (armarSistema o) s) = LOW /\
     alarmeDisparado (state_of (armarSistema o) s) = false).
Proof.
  split; [|split; [|split; [|split]]].
  - intros s Hs. exact (proj2 (reachable_Inv s Hs)).
  - intros r fs_ok a.
    assert (H : flags (state_of (setup fs_ok a) (boot r)) = flags (boot false)).
    { unfold setup. rewrite !seq_state.
      change (state_of (emit (SerialBegin 115200)) (boot r)) with (boot r).
      remember (state_of (conectaWiFi a)) as f.
      destruct fs_ok; cbn; subst f; rewrite conectaWiFi_flags; reflexivity. }
    unfold flags in H. injection H as _ H2 H3. auto.
  - intros s. split; reflexivity.
  - intros o s. split; reflexivity.
  - intros o s Hs Hoff. destruct (reachable_Inv s Hs) as [Himp Hrel].
    unfold state_of. rewrite armarSistema_disarmed by exact Hoff. cbn.
    split; [|reflexivity].
    rewrite Hrel. destruct (alarmeDisparado s); [|reflexivity].
    rewrite Himp in Hoff by reflexivity. discriminate Hoff.
Qed.

Lemma relay_follows_alarmeDisparado_witness :
  reachable s_triggered /\ relay s_triggered = alarmeDisparado s_triggered /\
  reachable s_disarmed /\ sistemaAtivo s_disarmed = false /\
  relay (state_of (armarSistema "Telegram") s_disarmed) = LOW.
Proof.
  split; [exact reachable_s_triggered|].
  split; [exact (proj1 relay_follows_alarmeDisparado s_triggered
                   reachable_s_triggered)|].
  split; [exact reachable_s_disarmed|].
  split; [reflexivity|].
  exact (proj1 (proj2 (proj2 (proj2 (proj2 relay_follows_alarmeDisparado)))
                 "Telegram" s_disarmed reachable_s_disarmed eq_refl)).
Defined.

(** C5. A Disarm handled while the system is armed (triggered or not) makes
    exactly three calls -- one write of LOW to the relay pin (pin 12), one
    notification to the chat whose text is "✅ Sistema DESARMADO com sucesso
    pela origem: " followed by the source, one log line with the same text
    -- and leaves armed, triggered and the relay off; nothing else
    changes. *)
Theorem disarm_from_armed (origem : string) (s : Sys) :
  sistemaAtivo s = true ->
  effects_of (desarmarSistema origem) s =
    [DigitalWrite 12 false;
     SendMessage "SEU_CHAT_ID_TELEGRAM"
       ("✅ Sistema DESARMADO com sucesso pela origem: " ++ origem) "";
     LogEvento ("✅ Sistema DESARMADO com sucesso pela origem: " ++ origem)] /\
  count is_DeactivateSiren (effects_of (desarmarSistema origem) s) = 1%nat /\
  count is_ActivateSiren (effects_of (desarmarSistema origem) s) = 0%nat /\
  count is_Notify (effects_of (desarmarSistema origem) s) = 1%nat /\
  count is_LogLine (effects_of (desarmarSistema origem) s) = 1%nat /\
  state_of (desarmarSistema origem) s =
    mkSys false false (lastMsgTime s) (lastWiFiCheck s)
          (wifiConectadoAnterior s) (ultimoEstado s) (ultimoDebounce s) false.
Proof.
  intros _. unfold effects_of, state_of. rewrite desarmarSistema_eq.
  repeat split.
Qed.

Lemma disarm_from_armed_witness :
  sistemaAtivo s_triggered = true /\
  alarmeDisparado s_triggered = true /\
  effects_of (desarmarSistema "Botão físico") s_triggered =
    [DigitalWrite 12 false;
     SendMessage "SEU_CHAT_ID_TELEGRAM"
       "✅ Sistema DESARMADO com sucesso pela origem: Botão físico" "";
     LogEvento "✅ Sistema DESARMADO com sucesso pela origem: Botão físico"] /\
  flags (state_of (desarmarSistema "Botão físico") s_triggered)
    = (false, false, false).
Proof.
  split; [reflexivity|]. split; [reflexivity|].
  destruct (disarm_from_armed "Botão físico" s_triggered eq_refl)
    as (He & _ & _ & _ & _ & Hst).
  split; [exact He|].
  rewrite Hst. reflexivity.
Defined.

(** C6. An Arm handled while the system is already armed changes no global
    and makes one call only: the notification "ℹ️ O sistema já se encontra
    armado." to the chat.  That text is not the success notification "🔒
    Sistema ARMADO com sucesso pela origem: " followed by the source, which
    is what arming a disarmed system sends and logs; there is no relay write
    and no log line. *)
Theorem arm_when_armed (origem : string) (s : Sys) :
  sistemaAtivo s = true ->
  state_of (armarSistema origem) s = s /\
  effects_of (armarSistema origem) s =
    [SendMessage "SEU_CHAT_ID_TELEGRAM"
       "ℹ️ O sistema já se encontra armado." ""] /\
  "ℹ️ O sistema já se encontra armado."
    <> "🔒 Sistema ARMADO com sucesso pela origem: " ++ origem /\
  (forall s', sistemaAtivo s' = false ->
     effects_of (armarSistema origem) s' =
       [SendMessage "SEU_CHAT_ID_TELEGRAM"
          ("🔒 Sistema ARMADO com sucesso pela origem: " ++ origem) "";
        LogEvento ("🔒 Sistema ARMADO com sucesso pela origem: " ++ origem)]) /\
  count is_siren (effects_of (armarSistema origem) s) = 0%nat /\
  count is_LogLine (effects_of (armarSistema origem) s) = 0%nat /\
  count is_Notify (effects_of (armarSistema origem) s) = 1%nat.
Proof.
  intros H. unfold state_of, effects_of.
  rewrite armarSistema_armed by exact H. cbn [fst snd].
  split; [reflexivity|]. split; [reflexivity|].
  split; [cbv; discriminate|].
  split; [|repeat split].
  intros s' Hoff. rewrite armarSistema_disarmed by exact Hoff. reflexivity.
Qed.

Lemma arm_when_armed_witness :
  sistemaAtivo s_triggered = true /\
  state_of (armarSistema "Controle RF") s_triggered = s_triggered /\
  effects_of (armarSistema "Controle RF") s_triggered =
    [SendMessage "SEU_CHAT_ID_TELEGRAM"
       "ℹ️ O sistema já se encontra armado." ""].
Proof.
  split; [reflexivity|].
  destruct (arm_when_armed "Controle RF" s_triggered eq_refl)
    as (Hst & He & _).
  split; [exact Hst|exact He].
Defined.

(** C3, as the code has it.  A Disarm handled while the system is already
    disarmed leaves every global as it was, and the handler acknowledges it
    the way it acknowledges any Disarm: the relay write LOW, the
    notification "DESARMADO com sucesso pela origem: <origem>" and the log
    line are all made again, the same three calls as from any other state. *)
Theorem disarm_when_disarmed (origem : string) (s : Sys) :
  reachable s ->
  sistemaAtivo s = false ->
  state_of (desarmarSistema origem) s = s /\
  effects_of (desarmarSistema origem) s =
    [DigitalWrite RELAY_PIN LOW;
     SendMessage CHAT_ID (msgDesarmado origem) "";
     LogEvento (msgDesarmado origem)] /\
  (forall s', effects_of (desarmarSistema origem) s'
              = effects_of (desarmarSistema origem) s).
Proof.
  intros Hs Hoff. destruct (reachable_Inv s Hs) as [Himp Hrel].
  unfold state_of, effects_of.
  split; [|split; [reflexivity|intros s'; reflexivity]].
  rewrite desarmarSistema_eq. cbn [fst].
  assert (Ht : alarmeDisparado s = false).
  { destruct (alarmeDisparado s); [|reflexivity].
    rewrite Himp in Hoff by reflexivity. discriminate Hoff. }
  rewrite Ht in Hrel. destruct s; cbn in *. subst. reflexivity.
Qed.

Lemma disarm_when_disarmed_witness :
  reachable s_disarmed /\ sistemaAtivo s_disarmed = false /\
  state_of (desarmarSistema "Telegram") s_disarmed = s_disarmed.
Proof.
  split; [exact reachable_s_disarmed|]. split; [reflexivity|].
  exact (proj1 (disarm_when_disarmed "Telegram" s_disarmed
                  reachable_s_disarmed eq_refl)).
Defined.

(** C3 as stated fails: the system has just been disarmed, a second Disarm
    arrives, and the success notification and the disarm log line are
    produced once more. *)
Lemma repeated_disarm_notifies_again :
  ~ (sistemaAtivo s_disarmed = false ->
     ~ In (SendMessage CHAT_ID (msgDesarmado "Telegram") "")
          (effects_of (desarmarSistema "Telegram") s_disarmed) /\
     ~ In (LogEvento (msgDesarmado "Telegram"))
          (effects_of (desarmarSistema "Telegram") s_disarmed)).
Proof.
  intros H. destruct (H eq_refl) as [Hn _]. apply Hn.
  right. left. reflexivity.
Qed.

Lemma String_of_ulong_read_back (z : Z) :
  0 <= z -> ulong_of_String (String_of_ulong z) = Some z.
Proof.
  intros Hz. unfold ulong_of_String, String_of_ulong.
  rewrite NilEmpty.usu. cbn [option_map].
  rewrite DecimalN.Unsigned.of_to, Z2N.id by exact Hz. reflexivity.
Qed.

Lemma append_same_prefix (p a b : string) : p ++ a = p ++ b -> a = b.
Proof.
  induction p as [|c p IH]; intros H; [exact H|].
  apply IH. change (String c (p ++ a) = String c (p ++ b)) in H.
  injection H as H. exact H.
Qed.

(** C8. A radio code that is neither the arm code 1234567 nor the disarm
    code 7654321 changes no global.  [handleRF] makes one call, a log line
    whose text is "Código RF desconhecido recebido: " followed by the code
    in decimal; the digits read back give the code, so two different codes
    never leave the same line.  [checarRF] around it adds a serial print and
    the receiver reset: one log line, no chat notification, no relay
    write. *)
Theorem unknown_rf_code (code : Z) (s : Sys) :
  code <> 1234567 -> code <> 7654321 ->
  handleRF code s =
    (s, [LogEvento ("Código RF desconhecido recebido: "
                    ++ String_of_ulong code)]) /\
  (0 <= code -> ulong_of_String (String_of_ulong code) = Some code) /\
  (forall code', 0 <= code -> 0 <= code' ->
     "Código RF desconhecido recebido: " ++ String_of_ulong code
     = "Código RF desconhecido recebido: " ++ String_of_ulong code' ->
     code = code') /\
  state_of (checarRF (Some code)) s = s /\
  count is_LogLine (effects_of (checarRF (Some code)) s) = 1%nat /\
  count is_Notify (effects_of (checarRF (Some code)) s) = 0%nat /\
  count is_siren (effects_of (checarRF (Some code)) s) = 0%nat.
Proof.
  intros Ha Hd.
  assert (H : handleRF code s =
    (s, [LogEvento ("Código RF desconhecido recebido: "
                    ++ String_of_ulong code)])).
  { unfold handleRF.
    destruct (Z.eqb_spec code CODE_ARM) as [E|_]; [contradiction|].
    destruct (Z.eqb_spec code CODE_DISARM) as [E|_]; [contradiction|].
    reflexivity. }
  split; [exact H|].
  split; [apply String_of_ulong_read_back|].
  split.
  { intros code' Hc Hc' Hline. apply append_same_prefix in Hline.
    apply (f_equal ulong_of_String) in Hline.
    rewrite !String_of_ulong_read_back in Hline by assumption.
    injection Hline as Hline. exact Hline. }
  unfold state_of, effects_of, checarRF, seq. cbn [fst snd Serial_print emit].
  rewrite H. cbn. repeat split.
Qed.

Lemma unknown_rf_code_witness :
  handleRF 42 s_armed =
    (s_armed, [LogEvento "Código RF desconhecido recebido: 42"]) /\
  handleRF 4294967295 s_setup =
    (s_setup, [LogEvento "Código RF desconhecido recebido: 4294967295"]) /\
  handleRF 7654320 s_triggered =
    (s_triggered, [LogEvento "Código RF desconhecido recebido: 7654320"]) /\
  ulong_of_String (String_of_ulong 1234568) = Some 1234568.
Proof.
  split; [|split; [|split]].
  - apply (unknown_rf_code 42 s_armed); lia.
  - apply (unknown_rf_code 4294967295 s_setup); lia.
  - apply (unknown_rf_code 7654320 s_triggered); lia.
  - apply (unknown_rf_code 1234568 s_setup); lia.
Defined.

(** C9. The source tag of an Arm or of a Disarm never reaches the state or
    the relay: from the same state, two different tags give the same
    globals and the same relay writes, and effect lists that differ only in
    the text of the notification and of the log line.  The three channels
    reach the controller through these two functions. *)
Theorem source_independence (o1 o2 : string) (s : Sys) :
  (state_of (armarSistema o1) s = state_of (armarSistema o2) s /\
   filter is_siren (effects_of (armarSistema o1) s)
     = filter is_siren (effects_of (armarSistema o2) s) /\
   map shape (effects_of (armarSistema o1) s)
     = map shape (effects_of (armarSistema o2) s)) /\
  (state_of (desarmarSistema o1) s = state_of (desarmarSistema o2) s /\
   filter is_siren (effects_of (desarmarSistema o1) s)
     = filter is_siren (effects_of (desarmarSistema o2) s) /\
   map shape (effects_of (desarmarSistema o1) s)
     = map shape (effects_of (desarmarSistema o2) s)) /\
  (state_of (handleNewMessage (mkMsg "/armar" None)) s
     = state_of (handleRF CODE_ARM) s /\
   state_of (handleNewMessage (mkMsg "/desarmar" None)) s
     = state_of (handleRF CODE_DISARM) s).
Proof.
  split; [|split].
  - unfold state_of, effects_of. destruct (sistemaAtivo s) eqn:E.
    + rewrite !armarSistema_armed by exact E. repeat split.
    + rewrite !armarSistema_disarmed by exact E. repeat split.
  - unfold state_of, effects_of. rewrite !desarmarSistema_eq. repeat split.
  - unfold state_of, handleNewMessage, handleRF, seq. cbn.
    destruct (sistemaAtivo s) eqn:E.
    + rewrite !armarSistema_armed by exact E. split; reflexivity.
    + rewrite !armarSistema_disarmed by exact E. split; reflexivity.
Qed.

(** ** Motion *)

Lemma checarMovimento_eq (pir : bool) (s : Sys) :
  checarMovimento pir s =
  if sistemaAtivo s && negb (alarmeDisparado s) && pir
  then (set_alarmeDisparado true (set_relay HIGH s), motion_effects)
  else (s, []).
Proof.
  unfold checarMovimento, ifs.
  destruct (sistemaAtivo s && negb (alarmeDisparado s) && pir); reflexivity.
Qed.

Lemma foreach_cons {A : Type} (body : A -> Cmd) (x : A) (l : list A) (s : Sys) :
  foreach (x :: l) body s =
  (state_of (foreach l body) (state_of (body x) s),
   (effects_of (body x) s ++ effects_of (foreach l body) (state_of (body x) s))%list).
Proof. reflexivity. Qed.

Lemma movimentos_eq (pirs : list bool) (s : Sys) :
  foreach pirs checarMovimento s =
  if sistemaAtivo s && negb (alarmeDisparado s) && existsb (fun b => b) pirs
  then (set_alarmeDisparado true (set_relay HIGH s), motion_effects)
  else (s, []).
Proof.
  revert s. induction pirs as [|pir pirs IH]; intros s.
  - cbn [foreach existsb]. rewrite andb_false_r. reflexivity.
  - rewrite foreach_cons. unfold state_of, effects_of.
    rewrite checarMovimento_eq. cbn [existsb].
    destruct (sistemaAtivo s) eqn:Ea, (alarmeDisparado s) eqn:Et, pir;
      cbn [andb negb orb fst snd]; rewrite IH; cbn [sistemaAtivo alarmeDisparado
        set_alarmeDisparado set_relay]; rewrite ?Ea, ?Et;
      cbn [andb negb orb fst snd]; try reflexivity.
    destruct (existsb (fun b => b) pirs); reflexivity.
Qed.

(** C4. A motion reading activates the siren exactly when the system is
    armed and not yet triggered.  Over any sequence of motion readings:
    while disarmed nothing is produced; while triggered nothing is
    produced; and from armed and untriggered the whole sequence, however
    many readings report motion, produces one relay write HIGH and one
    notification in total, and ends triggered. *)
Theorem motion_activates_siren_once :
  (forall s,
     existsb is_ActivateSiren (effects_of (checarMovimento true) s)
     = sistemaAtivo s && negb (alarmeDisparado s)) /\
  (forall pirs s, sistemaAtivo s = false ->
     foreach pirs checarMovimento s = (s, [])) /\
  (forall pirs s, alarmeDisparado s = true ->
     foreach pirs checarMovimento s = (s, [])) /\
  (forall pirs s,
     sistemaAtivo s = true -> alarmeDisparado s = false ->
     existsb (fun b => b) pirs = true ->
     count is_ActivateSiren (effects_of (foreach pirs checarMovimento) s) = 1%nat /\
     count is_Notify (effects_of (foreach pirs checarMovimento) s) = 1%nat /\
     alarmeDisparado (state_of (foreach pirs checarMovimento) s) = true).
Proof.
  split; [|split; [|split]].
  - intros s. unfold effects_of. rewrite checarMovimento_eq, andb_true_r.
    destruct (sistemaAtivo s && negb (alarmeDisparado s)); reflexivity.
  - intros pirs s H. rewrite movimentos_eq, H. reflexivity.
  - intros pirs s H. rewrite movimentos_eq, H, andb_false_r. reflexivity.
  - intros pirs s Ha Ht He. unfold effects_of, state_of.
    rewrite movimentos_eq, Ha, Ht, He. repeat split.
Qed.

Lemma motion_activates_siren_once_witness :
  sistemaAtivo s_armed = true /\ alarmeDisparado s_armed = false /\
  count is_ActivateSiren
    (effects_of (foreach [false; true; true; true] checarMovimento) s_armed)
  = 1%nat /\
  foreach [true; true] checarMovimento s_triggered = (s_triggered, []) /\
  foreach [true; true] checarMovimento s_disarmed = (s_disarmed, []).
Proof.
  split; [reflexivity|]. split; [reflexivity|].
  destruct motion_activates_siren_once as (_ & Hoff & Htrig & Hone).
  split; [|split].
  - exact (proj1 (Hone [false; true; true; true] s_armed
                    eq_refl eq_refl eq_refl)).
  - exact (Htrig [true; true] s_triggered eq_refl).
  - exact (Hoff [true; true] s_disarmed eq_refl).
Defined.

(** ** The rate-limited polls *)

Lemma ulong_elapsed (t d : Z) :
  0 <= d < 2 ^ 32 -> ulong (ulong (t + d) - t) = d.
Proof.
  intros Hd. unfold ulong.
  rewrite Zminus_mod_idemp_l.
  replace (t + d - t) with d by lia.
  apply Z.mod_small. exact Hd.
Qed.

Lemma elapsed_gt_within (t d interval : Z) :
  0 <= d <= interval -> interval < 2 ^ 32 ->
  elapsed_gt (ulong (t + d)) t interval = false.
Proof.
  intros Hd Hi. unfold elapsed_gt.
  rewrite ulong_elapsed by lia. apply Z.ltb_ge. lia.
Qed.

Lemma elapsed_gt_after (t d interval : Z) :
  interval < d < 2 ^ 32 -> 0 <= interval ->
  elapsed_gt (ulong (t + d)) t interval = true.
Proof.
  intros Hd Hi. unfold elapsed_gt.
  rewrite ulong_elapsed by lia. apply Z.ltb_lt. lia.
Qed.

Lemma armarSistema_timers (o : string) (s : Sys) :
  timers (state_of (armarSistema o) s) = timers s.
Proof.
  unfold state_of. destruct (sistemaAtivo s) eqn:E.
  - rewrite armarSistema_armed by exact E. reflexivity.
  - rewrite armarSistema_disarmed by exact E. reflexivity.
Qed.

Lemma desarmarSistema_timers (o : string) (s : Sys) :
  timers (state_of (desarmarSistema o) s) = timers s.
Proof. reflexivity. Qed.

Lemma handleNewMessage_timers (m : TelegramMessage) (s : Sys) :
  timers (state_of (handleNewMessage m) s) = timers s.
Proof.
  unfold handleNewMessage. rewrite seq_state.
  change (state_of (Serial_print _) s) with s.
  destruct (String.eqb (text m) "/armar"); [apply armarSistema_timers|].
  destruct (String.eqb (text m) "/desarmar"); [apply desarmarSistema_timers|].
  destruct (String.eqb (text m) "/status"); [reflexivity|].
  destruct (String.eqb (text m) "/logs"); [|reflexivity].
  unfold enviarLogsTelegram. destruct (log_file m) as [size|]; [|reflexivity].
  destruct (size =? 0); reflexivity.
Qed.

Lemma mensagens_timers (l : list TelegramMessage) (s : Sys) :
  timers (state_of (foreach l handleNewMessage) s) = timers s.
Proof.
  revert s. induction l as [|m l IH]; intros s; cbn [foreach]; [reflexivity|].
  rewrite seq_state, IH. apply handleNewMessage_timers.
Qed.

Lemma handleRF_timers (code : Z) (s : Sys) :
  timers (state_of (handleRF code) s) = timers s.
Proof.
  unfold handleRF.
  destruct (code =? CODE_ARM); [apply armarSistema_timers|].
  destruct (code =? CODE_DISARM); [apply desarmarSistema_timers|reflexivity].
Qed.

Lemma checarRF_timers (rx : option Z) (s : Sys) :
  timers (state_of (checarRF rx) s) = timers s.
Proof.
  destruct rx as [value|]; [|reflexivity].
  unfold checarRF. rewrite !seq_state.
  change (state_of (Serial_print _) s) with s.
  change (timers (state_of (handleRF value) s) = timers s).
  apply handleRF_timers.
Qed.

Lemma checarBotao_timers (i : ButtonSample) (s : Sys) :
  timers (state_of (checarBotao i) s) = timers s.
Proof.
  unfold checarBotao. rewrite !seq_state.
  set (s1 := state_of (WHEN _ THEN _) s).
  assert (H1 : timers s1 = timers s).
  { unfold s1, state_of, ifs. destruct (negb _); reflexivity. }
  clearbody s1.
  set (s2 := state_of (WHEN _ THEN _) s1).
  assert (H2 : timers s2 = timers s1).
  { unfold s2, state_of, ifs.
    destruct (elapsed_gt _ _ _); [|reflexivity].
    destruct (_ && _); [|reflexivity].
    destruct (sistemaAtivo s1);
      [ exact (desarmarSistema_timers "Botão físico" s1)
      | exact (armarSistema_timers "Botão físico" s1) ]. }
  change (timers s2 = timers s). congruence.
Qed.

Lemma checarMovimento_timers (pir : bool) (s : Sys) :
  timers (state_of (checarMovimento pir) s) = timers s.
Proof.
  unfold state_of. rewrite checarMovimento_eq.
  destruct (_ && _); reflexivity.
Qed.

Lemma checarWiFi_idle (i : WiFiCheck) (s : Sys) :
  elapsed_gt (wifi_now i) (lastWiFiCheck s) wifiCheckInterval = false ->
  checarWiFi i s = (s, []).
Proof. intros H. unfold checarWiFi, ifs. rewrite H. reflexivity. Qed.

Lemma checarWiFi_fired (i : WiFiCheck) (s : Sys) :
  elapsed_gt (wifi_now i) (lastWiFiCheck s) wifiCheckInterval = true ->
  lastWiFiCheck (state_of (checarWiFi i) s) = wifi_now_set i.
Proof.
  intros H. unfold checarWiFi, state_of, ifs at 1. rewrite H.
  destruct (wifi_connected i); cbn [negb].
  - unfold seq, ifs. cbn. destruct (wifiConectadoAnterior s); reflexivity.
  - change (lastWiFiCheck (state_of (conectaWiFi (wifi_attempt i))
       (set_wifiConectadoAnterior false
          (state_of (WHEN wifiConectadoAnterior THEN
                       logEvento "Conexão Wi-Fi perdida.")
             (set_lastWiFiCheck (wifi_now_set i) s)))) = wifi_now_set i).
    rewrite conectaWiFi_lastWiFiCheck. unfold state_of, ifs. cbn.
    destruct (wifiConectadoAnterior s); reflexivity.
Qed.

Lemma checarWiFi_lastMsgTime (i : WiFiCheck) (s : Sys) :
  lastMsgTime (state_of (checarWiFi i) s) = lastMsgTime s.
Proof.
  unfold checarWiFi, state_of, ifs at 1.
  destruct (elapsed_gt _ _ _); [|reflexivity].
  destruct (wifi_connected i); cbn [negb].
  - unfold seq, ifs. cbn. destruct (wifiConectadoAnterior s); reflexivity.
  - change (lastMsgTime (state_of (conectaWiFi (wifi_attempt i))
       (set_wifiConectadoAnterior false
          (state_of (WHEN wifiConectadoAnterior THEN
                       logEvento "Conexão Wi-Fi perdida.")
             (set_lastWiFiCheck (wifi_now_set i) s)))) = lastMsgTime s).
    rewrite conectaWiFi_lastMsgTime. unfold state_of, ifs. cbn.
    destruct (wifiConectadoAnterior s); reflexivity.
Qed.

Lemma checarTelegram_idle (i : TelegramPoll) (s : Sys) :
  elapsed_gt (tg_now i) (lastMsgTime s) msgInterval && tg_connected i = false ->
  checarTelegram i s = (s, []).
Proof. intros H. unfold checarTelegram, ifs. rewrite H. reflexivity. Qed.

Lemma checarTelegram_fired (i : TelegramPoll) (s : Sys) :
  elapsed_gt (tg_now i) (lastMsgTime s) msgInterval && tg_connected i = true ->
  hd_error (effects_of (checarTelegram i) s) = Some GetUpdates /\
  lastMsgTime (state_of (checarTelegram i) s) = tg_now_set i /\
  lastWiFiCheck (state_of (checarTelegram i) s) = lastWiFiCheck s.
Proof.
  intros H. unfold checarTelegram, state_of, effects_of, ifs. rewrite H.
  split; [reflexivity|]. split; [reflexivity|].
  change (snd (timers (set_lastMsgTime (tg_now_set i)
            (state_of (foreach (tg_messages i) handleNewMessage) s)))
          = snd (timers s)).
  change (snd (timers (state_of (foreach (tg_messages i) handleNewMessage) s))
          = snd (timers s)).
  rewrite mensagens_timers. reflexivity.
Qed.

(** *** Calls that never poll the chat *)

Lemma count_app (p : Effect -> bool) (l1 l2 : list Effect) :
  count p (l1 ++ l2)%list = (count p l1 + count p l2)%nat.
Proof. unfold count. rewrite filter_app, length_app. reflexivity. Qed.

Lemma quiet_skip (p : Effect -> bool) : quiet p skip.
Proof. intros s. reflexivity. Qed.

Lemma quiet_assign (p : Effect -> bool) (f : Sys -> Sys) : quiet p (assign f).
Proof. intros s. reflexivity. Qed.

Lemma quiet_emit (p : Effect -> bool) (e : Effect) :
  p e = false -> quiet p (emit e).
Proof. intros H s. unfold count, effects_of, emit. cbn. rewrite H. reflexivity. Qed.

Lemma quiet_seq (p : Effect -> bool) (a b : Cmd) :
  quiet p a -> quiet p b -> quiet p (a ;; b).
Proof.
  intros Ha Hb s. rewrite seq_effects, count_app, Ha, Hb. reflexivity.
Qed.

Lemma quiet_ifs (p : Effect -> bool) (c : Sys -> bool) (a b : Cmd) :
  quiet p a -> quiet p b -> quiet p (ifs c a b).
Proof.
  intros Ha Hb s. unfold effects_of, ifs.
  destruct (c s); [apply Ha|apply Hb].
Qed.

Lemma quiet_foreach {A : Type} (p : Effect -> bool) (body : A -> Cmd)
  (l : list A) :
  (forall x, quiet p (body x)) -> quiet p (foreach l body).
Proof.
  intros Hb. induction l as [|x l IH]; cbn [foreach].
  - apply quiet_skip.
  - apply quiet_seq; [apply Hb|exact IH].
Qed.

Ltac quiet_step :=
  first
    [ apply quiet_seq
    | apply quiet_ifs
    | apply quiet_skip
    | apply quiet_assign
    | apply quiet_emit; reflexivity
    | match goal with
      | |- quiet _ (if ?b then _ else _) => destruct b
      | |- quiet _ (match ?x with Some _ => _ | None => _ end) => destruct x
      end ].

Lemma armarSistema_quiet (o : string) : quiet is_GetUpdates (armarSistema o).
Proof. unfold armarSistema, sendMessage, logEvento. repeat quiet_step. Qed.

Lemma desarmarSistema_quiet (o : string) :
  quiet is_GetUpdates (desarmarSistema o).
Proof.
  unfold desarmarSistema, digitalWrite, sendMessage, logEvento.
  repeat quiet_step.
Qed.

Lemma esperaWiFi_quiet (t : Z) (l : list (bool * Z)) :
  quiet is_GetUpdates (esperaWiFi t l).
Proof.
  induction l as [|[c now] l IH]; cbn [esperaWiFi]; [apply quiet_skip|].
  unfold Serial_print. repeat quiet_step. exact IH.
Qed.

Lemma conectaWiFi_quiet (a : WiFiAttempt) : quiet is_GetUpdates (conectaWiFi a).
Proof.
  unfold conectaWiFi, Serial_println, Serial_print, logEvento.
  repeat first [apply esperaWiFi_quiet | quiet_step].
Qed.

Lemma checarWiFi_quiet (i : WiFiCheck) : quiet is_GetUpdates (checarWiFi i).
Proof.
  unfold checarWiFi, sendMessage, logEvento.
  repeat first [apply conectaWiFi_quiet | quiet_step].
Qed.

Lemma checarRF_quiet (rx : option Z) : quiet is_GetUpdates (checarRF rx).
Proof.
  unfold checarRF, handleRF, Serial_print, logEvento.
  repeat first [apply armarSistema_quiet | apply desarmarSistema_quiet
               | quiet_step].
Qed.

Lemma checarBotao_quiet (i : ButtonSample) : quiet is_GetUpdates (checarBotao i).
Proof.
  unfold checarBotao.
  repeat first [apply armarSistema_quiet | apply desarmarSistema_quiet
               | quiet_step].
Qed.

Lemma checarMovimento_quiet (pir : bool) :
  quiet is_GetUpdates (checarMovimento pir).
Proof.
  unfold checarMovimento, dispararAlarme, digitalWrite, sendMessage, logEvento.
  repeat quiet_step.
Qed.

(** *** A pass of [loop] inside the window of a poll *)

Lemma within_elapsed (interval last now : Z) :
  interval < 2 ^ 32 -> within interval last now ->
  elapsed_gt now last interval = false.
Proof.
  intros Hi (d & Hd & Hnow). rewrite Hnow.
  apply elapsed_gt_within; assumption.
Qed.

Lemma loop_telegram_idle (i : LoopInput) (s : Sys) :
  within msgInterval (lastMsgTime s) (tg_now (in_telegram i)) ->
  count is_GetUpdates (effects_of (loop i) s) = 0%nat /\
  lastMsgTime (state_of (loop i) s) = lastMsgTime s.
Proof.
  intros Hw. apply within_elapsed in Hw; [|reflexivity].
  unfold loop.
  assert (Htg : checarTelegram (in_telegram i) (state_of (checarWiFi (in_wifi i)) s)
                = (state_of (checarWiFi (in_wifi i)) s, [])).
  { apply checarTelegram_idle. rewrite checarWiFi_lastMsgTime, Hw. reflexivity. }
  assert (Hte : effects_of (checarTelegram (in_telegram i))
                  (state_of (checarWiFi (in_wifi i)) s) = [])
    by (unfold effects_of at 1; rewrite Htg; reflexivity).
  assert (Hts : state_of (checarTelegram (in_telegram i))
                  (state_of (checarWiFi (in_wifi i)) s)
                = state_of (checarWiFi (in_wifi i)) s)
    by (unfold state_of at 1; rewrite Htg; reflexivity).
  split.
  - rewrite !seq_effects, !count_app, Hte.
    rewrite checarWiFi_quiet, checarRF_quiet, checarBotao_quiet,
      checarMovimento_quiet. reflexivity.
  - rewrite !seq_state.
    change (fst (timers (state_of (checarMovimento (in_pir i))
      (state_of (checarBotao (in_button i))
        (state_of (checarRF (in_rf i))
          (state_of (checarTelegram (in_telegram i))
            (state_of (checarWiFi (in_wifi i)) s)))))) = lastMsgTime s).
    rewrite checarMovimento_timers, checarBotao_timers, checarRF_timers, Hts.
    apply checarWiFi_lastMsgTime.
Qed.

Lemma loop_wifi_idle (i : LoopInput) (s : Sys) :
  within wifiCheckInterval (lastWiFiCheck s) (wifi_now (in_wifi i)) ->
  checarWiFi (in_wifi i) s = (s, []) /\
  lastWiFiCheck (state_of (loop i) s) = lastWiFiCheck s.
Proof.
  intros Hw. apply within_elapsed in Hw; [|reflexivity].
  assert (Hwf : checarWiFi (in_wifi i) s = (s, []))
    by (apply checarWiFi_idle; exact Hw).
  split; [exact Hwf|].
  unfold loop. rewrite !seq_state.
  change (snd (timers (state_of (checarMovimento (in_pir i))
    (state_of (checarBotao (in_button i))
      (state_of (checarRF (in_rf i))
        (state_of (checarTelegram (in_telegram i))
          (state_of (checarWiFi (in_wifi i)) s)))))) = lastWiFiCheck s).
  rewrite checarMovimento_timers, checarBotao_timers, checarRF_timers.
  assert (Hws : state_of (checarWiFi (in_wifi i)) s = s)
    by (unfold state_of; rewrite Hwf; reflexivity).
  rewrite Hws. cbn [timers snd].
  destruct (elapsed_gt (tg_now (in_telegram i)) (lastMsgTime s) msgInterval
            && tg_connected (in_telegram i)) eqn:E.
  - exact (proj2 (proj2 (checarTelegram_fired _ s E))).
  - unfold state_of. rewrite checarTelegram_idle by exact E. reflexivity.
Qed.

Lemma loops_telegram_idle (ins : list LoopInput) (s : Sys) :
  Forall (fun i => within msgInterval (lastMsgTime s) (tg_now (in_telegram i)))
         ins ->
  count is_GetUpdates (effects_of (foreach ins loop) s) = 0%nat /\
  lastMsgTime (state_of (foreach ins loop) s) = lastMsgTime s.
Proof.
  revert s. induction ins as [|i ins IH]; intros s H; [split; reflexivity|].
  inversion H as [|i' ins' Hi Hins]; subst.
  destruct (loop_telegram_idle i s Hi) as [Hc Ht].
  cbn [foreach]. rewrite seq_effects, seq_state, count_app, Hc.
  rewrite <- Ht in Hins. destruct (IH _ Hins) as [Hc' Ht'].
  rewrite Hc', Ht', Ht. split; reflexivity.
Qed.

Lemma loops_wifi_idle (ins : list LoopInput) (s : Sys) :
  Forall (fun i => within wifiCheckInterval (lastWiFiCheck s)
                          (wifi_now (in_wifi i))) ins ->
  lastWiFiCheck (state_of (foreach ins loop) s) = lastWiFiCheck s.
Proof.
  revert s. induction ins as [|i ins IH]; intros s H; [reflexivity|].
  inversion H as [|i' ins' Hi Hins]; subst.
  destruct (loop_wifi_idle i s Hi) as [_ Ht].
  cbn [foreach]. rewrite seq_state.
  rewrite <- Ht in Hins. rewrite (IH _ Hins). exact Ht.
Qed.

(** C7, as the code has it.  Each of the two polls keeps the clock value of
    its last firing ([lastWiFiCheck], [lastMsgTime], 0 at boot) and compares
    the 32-bit difference to its interval with [>].  A call at most the
    interval after the recorded firing does nothing at all, so the poll
    never fires twice within its interval.  A call more than the interval
    (and less than a full turn of the counter) after it fires the Wi-Fi
    check; it fires the Telegram poll if Wi-Fi is connected, and with Wi-Fi
    down the Telegram poll does nothing and keeps its timer.  No other call
    of [loop] writes either timer, so any number of passes of [loop] whose
    clock reads stay within the interval of the recorded firing make no
    [getUpdates] call and leave the timer where it is. *)
Theorem poll_gates :
  (forall i s d,
     0 <= d <= wifiCheckInterval ->
     wifi_now i = ulong (lastWiFiCheck s + d) ->
     checarWiFi i s = (s, [])) /\
  (forall i s d,
     wifiCheckInterval < d < 2 ^ 32 ->
     wifi_now i = ulong (lastWiFiCheck s + d) ->
     lastWiFiCheck (state_of (checarWiFi i) s) = wifi_now_set i) /\
  (forall i s d,
     0 <= d <= msgInterval ->
     tg_now i = ulong (lastMsgTime s + d) ->
     checarTelegram i s = (s, [])) /\
  (forall i s d,
     msgInterval < d < 2 ^ 32 ->
     tg_now i = ulong (lastMsgTime s + d) ->
     tg_connected i = true ->
     hd_error (effects_of (checarTelegram i) s) = Some GetUpdates /\
     lastMsgTime (state_of (checarTelegram i) s) = tg_now_set i) /\
  (forall i s,
     tg_connected i = false -> checarTelegram i s = (s, [])) /\
  (forall op s,
     match op with
     | OpWiFi _ | OpLoop _ => True
     | _ => lastWiFiCheck (state_of (exec op) s) = lastWiFiCheck s
     end /\
     match op with
     | OpTelegram _ | OpLoop _ => True
     | _ => lastMsgTime (state_of (exec op) s) = lastMsgTime s
     end) /\
  (forall ins s,
     Forall (fun i => within msgInterval (lastMsgTime s)
                             (tg_now (in_telegram i))) ins ->
     count is_GetUpdates (effects_of (foreach ins loop) s) = 0%nat /\
     lastMsgTime (state_of (foreach ins loop) s) = lastMsgTime s) /\
  (forall ins s,
     Forall (fun i => within wifiCheckInterval (lastWiFiCheck s)
                             (wifi_now (in_wifi i))) ins ->
     lastWiFiCheck (state_of (foreach ins loop) s) = lastWiFiCheck s).
Proof.
  split; [|split; [|split; [|split; [|split; [|split; [|split]]]]]];
    [| | | | | |exact loops_telegram_idle|exact loops_wifi_idle].
  - intros i s d Hd Hnow. apply checarWiFi_idle. rewrite Hnow.
    apply elapsed_gt_within; [exact Hd|reflexivity].
  - intros i s d Hd Hnow. apply checarWiFi_fired. rewrite Hnow.
    apply elapsed_gt_after; [exact Hd|discriminate].
  - intros i s d Hd Hnow. apply checarTelegram_idle. rewrite Hnow.
    rewrite elapsed_gt_within; [reflexivity|exact Hd|reflexivity].
  - intros i s d Hd Hnow Hup.
    destruct (checarTelegram_fired i s) as (H1 & H2 & _); [|split; assumption].
    rewrite Hnow, Hup, elapsed_gt_after; [reflexivity|exact Hd|discriminate].
  - intros i s Hdown. apply checarTelegram_idle.
    rewrite Hdown. apply andb_false_r.
  - intros op s.
    assert (Ht : forall s', timers s' = timers s ->
              lastWiFiCheck s' = lastWiFiCheck s /\ lastMsgTime s' = lastMsgTime s).
    { unfold timers. intros s' H. injection H as H1 H2. auto. }
    destruct op; cbn [exec]; (split; [|]); try exact I.
    + apply checarWiFi_lastMsgTime.
    + destruct (elapsed_gt (tg_now i) (lastMsgTime s) msgInterval
                && tg_connected i) eqn:E.
      * exact (proj2 (proj2 (checarTelegram_fired i s E))).
      * unfold state_of. rewrite checarTelegram_idle by exact E. reflexivity.
    + apply Ht, handleNewMessage_timers.
    + apply Ht, handleNewMessage_timers.
    + apply Ht, checarRF_timers.
    + apply Ht, checarRF_timers.
    + apply Ht, checarBotao_timers.
    + apply Ht, checarBotao_timers.
    + apply Ht, checarMovimento_timers.
    + apply Ht, checarMovimento_timers.
Qed.

Lemma poll_gates_witness :
  (hd_error (effects_of (checarTelegram (poll_up 4000)) s_setup) = Some GetUpdates /\
   lastMsgTime s_polled = 4000) /\
  checarTelegram (poll_up 6000) s_polled = (s_polled, []) /\
  hd_error (effects_of (checarTelegram (poll_up 7001)) s_polled) = Some GetUpdates /\
  checarWiFi (wifi_check_up 9000) s_setup = (s_setup, []) /\
  lastWiFiCheck (state_of (checarWiFi (wifi_check_up 10001)) s_setup) = 10001 /\
  count is_GetUpdates
    (effects_of (foreach [pass_at 5000; pass_at 6000; pass_at 7000] loop)
       s_polled) = 0%nat.
Proof.
  destruct poll_gates as (W1 & W2 & T1 & T2 & _ & _ & L1 & _).
  split; [|split; [|split; [|split; [|split]]]];
    [| | | | |
     apply (L1 [pass_at 5000; pass_at 6000; pass_at 7000] s_polled);
     repeat apply Forall_cons; try apply Forall_nil;
     [ exists 1000 | exists 2000 | exists 3000 ];
     (split; [unfold msgInterval; lia|reflexivity]) ].
  - apply (T2 (poll_up 4000) s_setup 4000);
      [unfold msgInterval; lia|reflexivity|reflexivity].
  - apply (T1 (poll_up 6000) s_polled 2000);
      [unfold msgInterval; lia|reflexivity].
  - apply (T2 (poll_up 7001) s_polled 3001);
      [unfold msgInterval; lia|reflexivity|reflexivity].
  - apply (W1 (wifi_check_up 9000) s_setup 9000);
      [unfold wifiCheckInterval; lia|reflexivity].
  - apply (W2 (wifi_check_up 10001) s_setup 10001);
      [unfold wifiCheckInterval; lia|reflexivity].
Defined.

(** C7 as stated fails for the Telegram poll: it fired at 4000 ms; at
    9000 ms, 5000 ms later, Wi-Fi is down and the poll does not fire. *)
Lemma telegram_poll_waits_for_wifi :
  ~ (msgInterval < ulong (tg_now (poll_down 9000) - lastMsgTime s_polled) ->
     hd_error (effects_of (checarTelegram (poll_down 9000)) s_polled)
     = Some GetUpdates).
Proof.
  intros H.
  assert (Hlt : msgInterval < ulong (tg_now (poll_down 9000) - lastMsgTime s_polled))
    by reflexivity.
  specialize (H Hlt). discriminate H.
Qed.

(** ** The button *)

Lemma checarBotao_inert (i : ButtonSample) (s : Sys) :
  reads_close i ->
  effects_of (checarBotao i) s = [] /\
  flags (state_of (checarBotao i) s) = flags s.
Proof.
  unfold reads_close. intros Hc.
  assert (Hgate : elapsed_gt (btn_now i) (btn_now_change i) debounceDelay = false).
  { unfold elapsed_gt. apply Z.ltb_ge. exact Hc. }
  unfold checarBotao, effects_of, state_of, seq, ifs, assign, skip.
  destruct (leitura i) eqn:El, (ultimoEstado s) eqn:Eu;
    cbn [Bool.eqb negb andb fst snd LOW HIGH set_ultimoDebounce ultimoDebounce
         ultimoEstado app];
    rewrite ?Hgate, ?Eu; cbn [Bool.eqb negb andb fst snd app];
    try (split; reflexivity);
    destruct (elapsed_gt (btn_now i) (ultimoDebounce s) debounceDelay);
    split; reflexivity.
Qed.

(** C2 fails on the code.  [checarBotao] keeps one variable, [ultimoEstado],
    for both the last raw reading and the debounced level.  The press test
    [leitura == LOW && ultimoEstado == HIGH] can only hold in a call where
    the reading has just changed, and in that call [ultimoDebounce] has just
    been set to the current time, so the stability test fails.  Whatever the
    button does, as long as the two clock reads of a call are within the
    debounce delay of each other, the handler never arms, never disarms and
    makes no call. *)
Theorem button_press_never_registered (samples : list ButtonSample) (s : Sys) :
  Forall reads_close samples ->
  effects_of (foreach samples checarBotao) s = [] /\
  sistemaAtivo (state_of (foreach samples checarBotao) s) = sistemaAtivo s /\
  alarmeDisparado (state_of (foreach samples checarBotao) s) = alarmeDisparado s /\
  relay (state_of (foreach samples checarBotao) s) = relay s.
Proof.
  intros H.
  enough (He : effects_of (foreach samples checarBotao) s = [] /\
               flags (state_of (foreach samples checarBotao) s) = flags s).
  { destruct He as [He Hf]. split; [exact He|].
    unfold flags in Hf. injection Hf as H1 H2 H3. auto. }
  revert s.
  induction H as [|i samples Hi _ IH]; intros s; [split; reflexivity|].
  unfold effects_of, state_of. rewrite foreach_cons. cbn [fst snd].
  destruct (checarBotao_inert i s Hi) as [He Hf].
  destruct (IH (state_of (checarBotao i) s)) as [He' Hf'].
  rewrite He, He', Hf', Hf. split; reflexivity.
Qed.

Lemma button_press_never_registered_witness :
  Forall reads_close clean_press /\
  sistemaAtivo s_setup = false /\
  effects_of (foreach clean_press checarBotao) s_setup = [] /\
  sistemaAtivo (state_of (foreach clean_press checarBotao) s_setup) = false.
Proof.
  assert (Hc : Forall reads_close clean_press).
  { unfold clean_press. cbn [map List.seq].
    repeat constructor; intros H; vm_compute in H; discriminate H. }
  split; [exact Hc|]. split; [reflexivity|].
  destruct (button_press_never_registered clean_press s_setup Hc)
    as (He & Ha & _ & _).
  split; [exact He|exact Ha].
Defined.

(** * Beyond the claims *)

(** ** Chat commands *)

Lemma armarSistema_replies (o : string) (s : Sys) :
  count is_Notify (effects_of (armarSistema o) s) = 1%nat.
Proof.
  unfold effects_of. destruct (sistemaAtivo s) eqn:E.
  - rewrite armarSistema_armed by exact E. reflexivity.
  - rewrite armarSistema_disarmed by exact E. reflexivity.
Qed.

Lemma handleNewMessage_replies (m : TelegramMessage) (s : Sys) :
  count is_Notify (effects_of (handleNewMessage m) s) = 1%nat.
Proof.
  unfold handleNewMessage. rewrite seq_effects, count_app.
  change (state_of (Serial_print _) s) with s.
  change (count is_Notify (effects_of (Serial_print _) s)) with 0%nat.
  destruct (String.eqb (text m) "/armar"); [apply armarSistema_replies|].
  destruct (String.eqb (text m) "/desarmar"); [reflexivity|].
  destruct (String.eqb (text m) "/status"); [reflexivity|].
  destruct (String.eqb (text m) "/logs"); [|reflexivity].
  unfold enviarLogsTelegram. destruct (log_file m) as [size|]; [|reflexivity].
  destruct (size =? 0); reflexivity.
Qed.

Lemma mensagens_replies (l : list TelegramMessage) (s : Sys) :
  count is_Notify (effects_of (foreach l handleNewMessage) s) = List.length l.
Proof.
  revert s. induction l as [|m l IH]; intros s; [reflexivity|].
  cbn [foreach List.length].
  rewrite seq_effects, count_app, handleNewMessage_replies, IH. reflexivity.
Qed.

(** X1. Every chat message is answered exactly once, whatever its text and
    whatever the state: one [sendMessage] or [sendDocument] per message.  A
    batch of [n] messages gets [n] replies, and so does a poll that
    fires. *)
Theorem every_message_one_reply :
  (forall m s, count is_Notify (effects_of (handleNewMessage m) s) = 1%nat) /\
  (forall l s,
     count is_Notify (effects_of (foreach l handleNewMessage) s)
     = List.length l) /\
  (forall i s,
     hd_error (effects_of (checarTelegram i) s) = Some GetUpdates ->
     count is_Notify (effects_of (checarTelegram i) s)
     = List.length (tg_messages i)).
Proof.
  split; [exact handleNewMessage_replies|].
  split; [exact mensagens_replies|].
  intros i s Hfired.
  destruct (elapsed_gt (tg_now i) (lastMsgTime s) msgInterval && tg_connected i)
    eqn:E.
  - unfold checarTelegram, effects_of, ifs. rewrite E.
    change (count is_Notify
              (effects_of (emit GetUpdates ;;
                           foreach (tg_messages i) handleNewMessage ;;
                           assign (set_lastMsgTime (tg_now_set i))) s)
            = List.length (tg_messages i)).
    rewrite !seq_effects, !count_app, mensagens_replies.
    change (count is_Notify (effects_of (emit GetUpdates) s)) with 0%nat.
    rewrite quiet_assign. cbn. apply Nat.add_0_r.
  - unfold effects_of in Hfired. rewrite checarTelegram_idle in Hfired by exact E.
    discriminate Hfired.
Qed.

Lemma every_message_one_reply_witness :
  count is_Notify
    (effects_of (checarTelegram
       (mkTelegramPoll 4000 true
          [mkMsg "/status" None; mkMsg "/armar" None; mkMsg "oi" None] 4001))
       s_setup) = 3%nat.
Proof.
  apply (proj2 (proj2 every_message_one_reply)
           (mkTelegramPoll 4000 true
              [mkMsg "/status" None; mkMsg "/armar" None; mkMsg "oi" None] 4001)
           s_setup).
  reflexivity.
Defined.

(** X2. Only [/armar] and [/desarmar] act on the system.  A message with any
    other text changes no global and makes no relay write and no log line;
    and a text that is none of the four commands gets the fixed "Comando não
    reconhecido" reply and nothing else besides the serial trace. *)
Theorem other_messages_change_nothing (m : TelegramMessage) (s : Sys) :
  text m <> "/armar" -> text m <> "/desarmar" ->
  state_of (handleNewMessage m) s = s /\
  count is_siren (effects_of (handleNewMessage m) s) = 0%nat /\
  count is_LogLine (effects_of (handleNewMessage m) s) = 0%nat /\
  (text m <> "/status" -> text m <> "/logs" ->
   effects_of (handleNewMessage m) s =
   [SerialPrint ("Comando recebido do Telegram: " ++ text m ++ nl);
    SendMessage CHAT_ID
      "Comando não reconhecido. Use /armar, /desarmar, /status ou /logs." ""]).
Proof.
  intros Ha Hd. unfold handleNewMessage, state_of, effects_of, seq.
  cbn [Serial_print emit fst snd].
  destruct (String.eqb_spec (text m) "/armar") as [E|_]; [contradiction|].
  destruct (String.eqb_spec (text m) "/desarmar") as [E|_]; [contradiction|].
  destruct (String.eqb_spec (text m) "/status") as [Es|Es].
  { repeat split. intros H; contradiction. }
  destruct (String.eqb_spec (text m) "/logs") as [El|El].
  { unfold enviarLogsTelegram. destruct (log_file m) as [size|].
    - destruct (size =? 0); repeat split; intros _ H; contradiction.
    - repeat split. intros _ H; contradiction. }
  repeat split.
Qed.

Lemma other_messages_change_nothing_witness :
  state_of (handleNewMessage (mkMsg "/Armar" None)) s_triggered = s_triggered.
Proof.
  apply (other_messages_change_nothing (mkMsg "/Armar" None) s_triggered);
    discriminate.
Defined.

(** X3. [/status] changes nothing and replies in Markdown with a text that
    tells the two flags apart: two states get the same reply only if they
    agree on armed and on triggered. *)
Theorem status_reply_tells_the_flags :
  (forall lf s,
     handleNewMessage (mkMsg "/status" lf) s =
     (s, [SerialPrint ("Comando recebido do Telegram: " ++ "/status" ++ nl);
          SendMessage CHAT_ID (statusResp s) "Markdown"])) /\
  (forall s1 s2,
     statusResp s1 = statusResp s2 ->
     sistemaAtivo s1 = sistemaAtivo s2 /\
     alarmeDisparado s1 = alarmeDisparado s2).
Proof.
  split; [intros lf s; reflexivity|].
  intros s1 s2. unfold statusResp.
  destruct (sistemaAtivo s1), (alarmeDisparado s1),
           (sistemaAtivo s2), (alarmeDisparado s2);
    intros H; try (split; reflexivity); vm_compute in H; discriminate H.
Qed.

Lemma status_reply_tells_the_flags_witness :
  statusResp s_armed = statusResp (state_of (checarTelegram (poll_up 4000)) s_armed) /\
  sistemaAtivo s_armed
    = sistemaAtivo (state_of (checarTelegram (poll_up 4000)) s_armed) /\
  alarmeDisparado s_armed
    = alarmeDisparado (state_of (checarTelegram (poll_up 4000)) s_armed).
Proof.
  split; [reflexivity|].
  exact (proj2 status_reply_tells_the_flags s_armed
           (state_of (checarTelegram (poll_up 4000)) s_armed) eq_refl).
Defined.

Lemma armarSistema_armed_after (o : string) (s : Sys) :
  sistemaAtivo (state_of (armarSistema o) s) = true.
Proof.
  unfold state_of. destruct (sistemaAtivo s) eqn:E.
  - rewrite armarSistema_armed by exact E. exact E.
  - rewrite armarSistema_disarmed by exact E. reflexivity.
Qed.

Lemma handleNewMessage_armed_after (m : TelegramMessage) (s : Sys) :
  sistemaAtivo (state_of (handleNewMessage m) s) =
  match cmd_of m with
  | Some b => b
  | None => sistemaAtivo s
  end.
Proof.
  unfold cmd_of, handleNewMessage. rewrite seq_state.
  change (state_of (Serial_print _) s) with s.
  destruct (String.eqb (text m) "/armar"); [apply armarSistema_armed_after|].
  destruct (String.eqb (text m) "/desarmar"); [reflexivity|].
  destruct (String.eqb (text m) "/status"); [reflexivity|].
  destruct (String.eqb (text m) "/logs"); [|reflexivity].
  unfold enviarLogsTelegram. destruct (log_file m) as [size|]; [|reflexivity].
  destruct (size =? 0); reflexivity.
Qed.

(** X4. Within a batch of chat messages the last arm or disarm command
    wins: after the batch the system is armed exactly if the last [/armar]
    or [/desarmar] of the batch is [/armar], and as it was if the batch has
    neither.  The same holds for the poll that handles the batch. *)
Theorem last_command_wins :
  (forall l s,
     sistemaAtivo (state_of (foreach l handleNewMessage) s) =
     match last_cmd l with
     | Some b => b
     | None => sistemaAtivo s
     end) /\
  (forall i s,
     hd_error (effects_of (checarTelegram i) s) = Some GetUpdates ->
     sistemaAtivo (state_of (checarTelegram i) s) =
     match last_cmd (tg_messages i) with
     | Some b => b
     | None => sistemaAtivo s
     end).
Proof.
  assert (Hbatch : forall l s,
     sistemaAtivo (state_of (foreach l handleNewMessage) s) =
     match last_cmd l with
     | Some b => b
     | None => sistemaAtivo s
     end).
  { induction l as [|m l IH]; intros s; [reflexivity|].
    cbn [foreach last_cmd]. rewrite seq_state, IH.
    destruct (last_cmd l); [reflexivity|apply handleNewMessage_armed_after]. }
  split; [exact Hbatch|].
  intros i s Hfired.
  destruct (elapsed_gt (tg_now i) (lastMsgTime s) msgInterval && tg_connected i)
    eqn:E.
  - unfold checarTelegram, state_of, ifs. rewrite E.
    exact (Hbatch (tg_messages i) s).
  - unfold effects_of in Hfired. rewrite checarTelegram_idle in Hfired by exact E.
    discriminate Hfired.
Qed.

Lemma last_command_wins_witness :
  sistemaAtivo
    (state_of (checarTelegram
       (mkTelegramPoll 4000 true
          [mkMsg "/armar" None; mkMsg "/desarmar" None; mkMsg "/status" None]
          4001)) s_setup) = false.
Proof.
  apply (proj2 last_command_wins
           (mkTelegramPoll 4000 true
              [mkMsg "/armar" None; mkMsg "/desarmar" None; mkMsg "/status" None]
              4001) s_setup).
  reflexivity.
Defined.

(** X5. [/logs] never touches the globals and always answers with one call:
    the log is sent as a document exactly when the file exists and is not
    empty; a missing file and an empty file each get their own text
    message. *)
Theorem logs_request (f : LogFile) (s : Sys) :
  state_of (enviarLogsTelegram f) s = s /\
  List.length (effects_of (enviarLogsTelegram f) s) = 1%nat /\
  (effects_of (enviarLogsTelegram f) s
     = [SendDocument CHAT_ID "log_sentinela.txt"]
   <-> exists size, f = Some size /\ size <> 0) /\
  (f = None ->
   effects_of (enviarLogsTelegram f) s =
   [SendMessage CHAT_ID "Erro: Não foi possível encontrar o arquivo de log." ""]) /\
  (f = Some 0 ->
   effects_of (enviarLogsTelegram f) s =
   [SendMessage CHAT_ID "O arquivo de log está vazio." ""]).
Proof.
  unfold enviarLogsTelegram, state_of, effects_of.
  destruct f as [size|]; [destruct (Z.eqb_spec size 0) as [E|E]|];
    cbn [fst snd sendMessage emit List.length];
    (split; [reflexivity|]); (split; [reflexivity|]);
    (split; [split|split]).
  - discriminate.
  - intros (sz & Hsz & Hne). injection Hsz as <-. contradiction.
  - discriminate.
  - reflexivity.
  - intros _. exists size. split; [reflexivity|exact E].
  - reflexivity.
  - discriminate.
  - intros H. injection H as H. contradiction.
  - discriminate.
  - intros (sz & Hsz & _). discriminate Hsz.
  - reflexivity.
  - discriminate.
Qed.

Lemma logs_request_witness :
  effects_of (enviarLogsTelegram (Some 0)) s_armed =
  [SendMessage CHAT_ID "O arquivo de log está vazio." ""].
Proof.
  exact (proj2 (proj2 (proj2 (proj2 (logs_request (Some 0) s_armed)))) eq_refl).
Defined.

(** ** Arm and disarm composed *)

(** X6. Arming and disarming undo each other and repeat harmlessly.  On a
    state of a run: disarming after arming a disarmed system gives back the
    state it started from, and so does arming after disarming a system that
    was armed and not triggered.  On any state at all, a second Arm after an
    Arm, and a second Disarm after a Disarm, leave the globals as the first
    left them. *)
Theorem arm_disarm_round_trip (o1 o2 : string) :
  (forall s, reachable s -> sistemaAtivo s = false ->
     state_of (desarmarSistema o2) (state_of (armarSistema o1) s) = s) /\
  (forall s, reachable s ->
     sistemaAtivo s = true -> alarmeDisparado s = false ->
     state_of (armarSistema o2) (state_of (desarmarSistema o1) s) = s) /\
  (forall s,
     state_of (armarSistema o2) (state_of (armarSistema o1) s)
     = state_of (armarSistema o1) s) /\
  (forall s,
     state_of (desarmarSistema o2) (state_of (desarmarSistema o1) s)
     = state_of (desarmarSistema o1) s).
Proof.
  split; [|split; [|split]].
  - intros s Hs Hoff. destruct (reachable_Inv s Hs) as [Himp Hrel].
    unfold state_of. rewrite armarSistema_disarmed by exact Hoff.
    rewrite desarmarSistema_eq. cbn [fst].
    destruct s as [a t m w c u d r]; cbn in *. subst a.
    destruct t; [discriminate (Himp eq_refl)|]. subst r. reflexivity.
  - intros s Hs Hon Hnt. destruct (reachable_Inv s Hs) as [_ Hrel].
    unfold state_of. rewrite desarmarSistema_eq. cbn [fst].
    rewrite armarSistema_disarmed by reflexivity.
    destruct s as [a t m w c u d r]; cbn in *. subst. reflexivity.
  - intros s. unfold state_of.
    rewrite (armarSistema_armed o2) by apply armarSistema_armed_after.
    reflexivity.
  - intros s. reflexivity.
Qed.

Lemma arm_disarm_round_trip_witness :
  state_of (desarmarSistema "Controle RF")
    (state_of (armarSistema "Telegram") s_setup) = s_setup /\
  state_of (armarSistema "Telegram")
    (state_of (desarmarSistema "Controle RF") s_armed) = s_armed.
Proof.
  destruct (arm_disarm_round_trip "Telegram" "Controle RF") as (H1 & _).
  destruct (arm_disarm_round_trip "Controle RF" "Telegram") as (_ & H2 & _).
  split.
  - exact (H1 s_setup reachable_s_setup eq_refl).
  - exact (H2 s_armed reachable_s_armed eq_refl eq_refl).
Defined.

(** ** Wi-Fi *)

Lemma esperaWiFi_delays (start : Z) (l : list (bool * Z)) (k : nat) (s : Sys) :
  advancing start k l ->
  (count is_Delay (effects_of (esperaWiFi start l) s) <= 30 - k)%nat.
Proof.
  revert k. induction l as [|[c now] l IH]; intros k Hadv; cbn [esperaWiFi].
  - apply Nat.le_0_l.
  - destruct Hadv as [(t & Ht & Hnow) Hrest].
    destruct (negb c && (ulong (now - start) <? 15000)) eqn:E;
      [|apply Nat.le_0_l].
    apply andb_prop in E. destruct E as [_ E]. apply Z.ltb_lt in E.
    rewrite Hnow, ulong_elapsed in E by lia.
    rewrite !seq_effects, !count_app.
    change (count is_Delay (effects_of (emit (Delay 500)) s)) with 1%nat.
    change (count is_Delay (effects_of (Serial_print ".")
              (state_of (emit (Delay 500)) s))) with 0%nat.
    specialize (IH (S k) Hrest). cbn [Nat.add].
    change (state_of (Serial_print ".") (state_of (emit (Delay 500)) s)) with s.
    lia.
Qed.

(** X7. The wait of [conectaWiFi] is bounded.  If the clock read by the
    loop condition moves on by at least the 500 ms of each [delay(500)],
    the loop makes at most 30 delays -- 15 s -- however long the link
    stays down, and [conectaWiFi] then returns. *)
Theorem conectaWiFi_wait_bounded (a : WiFiAttempt) (s : Sys) :
  advancing (startAttemptTime a) 0 (polls a) ->
  (count is_Delay (effects_of (conectaWiFi a) s) <= 30)%nat.
Proof.
  intros Hadv. unfold conectaWiFi.
  destruct (connected_on_entry a); cbn [negb]; [apply Nat.le_0_l|].
  rewrite !seq_effects, !count_app.
  pose proof (esperaWiFi_delays (startAttemptTime a) (polls a) 0
                (state_of (Serial_print "Conectando ao WiFi")
                   (state_of (emit (WiFiBegin ssid password)) s)) Hadv) as Hw.
  change (count is_Delay (effects_of (emit (WiFiBegin ssid password)) s))
    with 0%nat.
  change (count is_Delay (effects_of (Serial_print "Conectando ao WiFi")
            (state_of (emit (WiFiBegin ssid password)) s))) with 0%nat.
  destruct (connected_on_exit a);
    match goal with
    | |- (_ + (_ + (_ + (_ + ?x))) <= _)%nat =>
        change x with 0%nat
    end;
    match goal with
    | |- (_ + (_ + (_ + (?x + _))) <= _)%nat =>
        change x with 0%nat
    end; lia.
Qed.

Lemma wifi_stays_down_advancing :
  advancing (startAttemptTime wifi_stays_down) 0 (polls wifi_stays_down).
Proof.
  unfold wifi_stays_down. cbn [startAttemptTime polls map List.seq advancing].
  repeat (split;
    [ match goal with
      | |- exists t, _ /\ ?n = _ => exists n
      end; split; [lia|reflexivity] | ]).
  exact I.
Qed.

Lemma conectaWiFi_wait_bounded_witness :
  advancing (startAttemptTime wifi_stays_down) 0 (polls wifi_stays_down) /\
  (count is_Delay (effects_of (conectaWiFi wifi_stays_down) s_setup) <= 30)%nat /\
  count is_Delay (effects_of (conectaWiFi wifi_stays_down) s_setup) = 30%nat.
Proof.
  split; [exact wifi_stays_down_advancing|].
  split; [|reflexivity].
  exact (conectaWiFi_wait_bounded wifi_stays_down s_setup
           wifi_stays_down_advancing).
Defined.

Lemma esperaWiFi_quiet_for (p : Effect -> bool) (t : Z) (l : list (bool * Z)) :
  p (Delay 500) = false -> p (SerialPrint ".") = false ->
  quiet p (esperaWiFi t l).
Proof.
  intros Hd Hp.
  induction l as [|[c now] l IH]; cbn [esperaWiFi]; [apply quiet_skip|].
  destruct (negb c && (ulong (now - t) <? 15000)); [|apply quiet_skip].
  apply quiet_seq; [apply quiet_emit; exact Hd|].
  apply quiet_seq; [apply quiet_emit; exact Hp|exact IH].
Qed.

Lemma conectaWiFi_state (a : WiFiAttempt) (s : Sys) :
  state_of (conectaWiFi a) s =
  if negb (connected_on_entry a) && connected_on_exit a
  then set_wifiConectadoAnterior true s else s.
Proof.
  unfold conectaWiFi.
  destruct (connected_on_entry a); cbn [negb andb]; [reflexivity|].
  rewrite !seq_state, esperaWiFi_state.
  destruct (connected_on_exit a); reflexivity.
Qed.

Lemma conectaWiFi_no_notify (a : WiFiAttempt) : quiet is_Notify (conectaWiFi a).
Proof.
  unfold conectaWiFi, Serial_println, Serial_print, logEvento.
  repeat first [apply esperaWiFi_quiet_for; reflexivity | quiet_step].
Qed.

Lemma conectaWiFi_no_siren (a : WiFiAttempt) : quiet is_siren (conectaWiFi a).
Proof.
  unfold conectaWiFi, Serial_println, Serial_print, logEvento.
  repeat first [apply esperaWiFi_quiet_for; reflexivity | quiet_step].
Qed.

(** X8. [conectaWiFi] does nothing at all when the link is already up.
    Otherwise it writes one log line, "WiFi conectado." or "Falha na conexão
    WiFi.", never sends a chat message and never writes the relay; the only
    global it can change is [wifiConectadoAnterior], which it sets to true
    exactly when the attempt ends connected and never clears. *)
Theorem conectaWiFi_summary (a : WiFiAttempt) (s : Sys) :
  (connected_on_entry a = true -> conectaWiFi a s = (s, [])) /\
  state_of (conectaWiFi a) s =
    (if negb (connected_on_entry a) && connected_on_exit a
     then set_wifiConectadoAnterior true s else s) /\
  (wifiConectadoAnterior s = true ->
   wifiConectadoAnterior (state_of (conectaWiFi a) s) = true) /\
  count is_LogLine (effects_of (conectaWiFi a) s)
    = (if connected_on_entry a then 0 else 1)%nat /\
  count is_Notify (effects_of (conectaWiFi a) s) = 0%nat /\
  count is_siren (effects_of (conectaWiFi a) s) = 0%nat.
Proof.
  split; [|split; [|split; [|split; [|split]]]].
  - intros H. unfold conectaWiFi. rewrite H. reflexivity.
  - apply conectaWiFi_state.
  - intros H. rewrite conectaWiFi_state.
    destruct (negb (connected_on_entry a) && connected_on_exit a);
      [reflexivity|exact H].
  - unfold conectaWiFi.
    destruct (connected_on_entry a); cbn [negb]; [reflexivity|].
    rewrite !seq_effects, !count_app.
    rewrite (esperaWiFi_quiet_for is_LogLine) by reflexivity.
    destruct (connected_on_exit a); reflexivity.
  - apply conectaWiFi_no_notify.
  - apply conectaWiFi_no_siren.
Qed.

Lemma conectaWiFi_summary_witness :
  conectaWiFi (mkAttempt true 0 [] true) s_armed = (s_armed, []) /\
  wifiConectadoAnterior (state_of (conectaWiFi wifi_stays_down) s_setup) = true.
Proof.
  split.
  - exact (proj1 (conectaWiFi_summary (mkAttempt true 0 [] true) s_armed)
             eq_refl).
  - exact (proj1 (proj2 (proj2 (conectaWiFi_summary wifi_stays_down s_setup)))
             eq_refl).
Defined.

Lemma checarWiFi_up (i : WiFiCheck) (s : Sys) :
  elapsed_gt (wifi_now i) (lastWiFiCheck s) wifiCheckInterval = true ->
  wifi_connected i = true ->
  checarWiFi i s =
  (set_wifiConectadoAnterior true (set_lastWiFiCheck (wifi_now_set i) s),
   if wifiConectadoAnterior s then []
   else [LogEvento "Conexão Wi-Fi restabelecida.";
         SendMessage CHAT_ID "✅ Sentinela: Conexão Wi-Fi restabelecida!" ""]).
Proof.
  intros Hf Hup. unfold checarWiFi, ifs at 1. rewrite Hf, Hup. cbn [negb].
  unfold seq, ifs, assign, logEvento, sendMessage, emit, skip. cbn.
  destruct (wifiConectadoAnterior s); reflexivity.
Qed.

Lemma checarWiFi_up_silent (i : WiFiCheck) (s : Sys) :
  wifiConectadoAnterior s = true -> wifi_connected i = true ->
  effects_of (checarWiFi i) s = [].
Proof.
  intros Hant Hup. unfold effects_of.
  destruct (elapsed_gt (wifi_now i) (lastWiFiCheck s) wifiCheckInterval) eqn:E.
  - rewrite checarWiFi_up by assumption. rewrite Hant. reflexivity.
  - rewrite checarWiFi_idle by exact E. reflexivity.
Qed.

(** X9. The chat hears of the link only when it comes back.  A Wi-Fi check
    that fires with the link up sends "Conexão Wi-Fi restabelecida!" (and
    logs it) exactly if the link was recorded as down, and records it as up;
    so the next check that finds the link up is silent.  A check that finds
    the link down never sends a chat message; and if its own reconnection
    attempt succeeds, the link is recorded as up there, so the following
    check is silent too: that recovery is logged but never announced. *)
Theorem wifi_restored_announced_once :
  (forall i s,
     elapsed_gt (wifi_now i) (lastWiFiCheck s) wifiCheckInterval = true ->
     wifi_connected i = true ->
     wifiConectadoAnterior (state_of (checarWiFi i) s) = true /\
     effects_of (checarWiFi i) s =
       if wifiConectadoAnterior s then []
       else [LogEvento "Conexão Wi-Fi restabelecida.";
             SendMessage CHAT_ID "✅ Sentinela: Conexão Wi-Fi restabelecida!" ""]) /\
  (forall i1 i2 s,
     elapsed_gt (wifi_now i1) (lastWiFiCheck s) wifiCheckInterval = true ->
     wifi_connected i1 = true -> wifi_connected i2 = true ->
     effects_of (checarWiFi i2) (state_of (checarWiFi i1) s) = []) /\
  (forall i s,
     wifi_connected i = false ->
     count is_Notify (effects_of (checarWiFi i) s) = 0%nat) /\
  (forall i1 i2 s,
     elapsed_gt (wifi_now i1) (lastWiFiCheck s) wifiCheckInterval = true ->
     wifi_connected i1 = false ->
     connected_on_entry (wifi_attempt i1) = false ->
     connected_on_exit (wifi_attempt i1) = true ->
     wifi_connected i2 = true ->
     effects_of (checarWiFi i2) (state_of (checarWiFi i1) s) = []).
Proof.
  split; [|split; [|split]].
  - intros i s Hf Hup. unfold state_of, effects_of.
    rewrite checarWiFi_up by assumption. split; reflexivity.
  - intros i1 i2 s Hf Hup1 Hup2. apply checarWiFi_up_silent; [|exact Hup2].
    unfold state_of. rewrite checarWiFi_up by assumption. reflexivity.
  - intros i s Hdown. unfold effects_of, checarWiFi, ifs at 1.
    destruct (elapsed_gt _ _ _); [|reflexivity]. rewrite Hdown. cbn [negb].
    change (count is_Notify
      (effects_of (assign (set_lastWiFiCheck (wifi_now_set i)) ;;
                   (WHEN wifiConectadoAnterior THEN
                      logEvento "Conexão Wi-Fi perdida.") ;;
                   assign (set_wifiConectadoAnterior false) ;;
                   conectaWiFi (wifi_attempt i)) s) = 0%nat).
    revert s. fold (quiet is_Notify
      (assign (set_lastWiFiCheck (wifi_now_set i)) ;;
       (WHEN wifiConectadoAnterior THEN logEvento "Conexão Wi-Fi perdida.") ;;
       assign (set_wifiConectadoAnterior false) ;;
       conectaWiFi (wifi_attempt i))).
    unfold logEvento.
    repeat first [apply conectaWiFi_no_notify | quiet_step].
  - intros i1 i2 s Hf Hdown He Hx Hup2.
    apply checarWiFi_up_silent; [|exact Hup2].
    unfold checarWiFi, state_of, ifs at 1. rewrite Hf, Hdown. cbn [negb].
    change (wifiConectadoAnterior
      (state_of (conectaWiFi (wifi_attempt i1))
         (set_wifiConectadoAnterior false
            (state_of (WHEN wifiConectadoAnterior THEN
                         logEvento "Conexão Wi-Fi perdida.")
               (set_lastWiFiCheck (wifi_now_set i1) s)))) = true).
    rewrite conectaWiFi_state, He, Hx. reflexivity.
Qed.

Lemma wifi_restored_announced_once_witness :
  effects_of (checarWiFi (wifi_check_up 30000))
    (state_of (checarWiFi (wifi_check_up 10001)) (boot false)) = [] /\
  effects_of (checarWiFi (wifi_check_up 10001)) (boot false) =
    [LogEvento "Conexão Wi-Fi restabelecida.";
     SendMessage CHAT_ID "✅ Sentinela: Conexão Wi-Fi restabelecida!" ""].
Proof.
  destruct wifi_restored_announced_once as (H1 & H2 & _).
  split.
  - exact (H2 (wifi_check_up 10001) (wifi_check_up 30000) (boot false)
             eq_refl eq_refl eq_refl).
  - exact (proj2 (H1 (wifi_check_up 10001) (boot false) eq_refl eq_refl)).
Defined.

(** ** The radio receiver *)

Lemma handleRF_no_reset (code : Z) : quiet is_ResetAvailable (handleRF code).
Proof.
  unfold handleRF, armarSistema, desarmarSistema, digitalWrite, sendMessage,
    logEvento.
  repeat quiet_step.
Qed.

(** X10. Every radio code is acknowledged once, after it has been handled:
    whatever the code -- arm, disarm or unknown -- [resetAvailable] is the
    last call [checarRF] makes and the only one of its kind.  With no code
    available [checarRF] does nothing. *)
Theorem rf_code_acknowledged_once :
  (forall s, checarRF None s = (s, [])) /\
  (forall value s,
     effects_of (checarRF (Some value)) s =
       (SerialPrint ("Sinal RF recebido: " ++ String_of_ulong value ++ nl)
        :: effects_of (handleRF value) s ++ [ResetAvailable])%list /\
     count is_ResetAvailable (effects_of (checarRF (Some value)) s) = 1%nat).
Proof.
  split; [reflexivity|].
  intros value s.
  assert (He : effects_of (checarRF (Some value)) s =
       (SerialPrint ("Sinal RF recebido: " ++ String_of_ulong value ++ nl)
        :: effects_of (handleRF value) s ++ [ResetAvailable])%list)
    by reflexivity.
  split; [exact He|].
  rewrite He.
  change (count is_ResetAvailable
            (effects_of (handleRF value) s ++ [ResetAvailable])%list = 1%nat).
  rewrite count_app, handleRF_no_reset. reflexivity.
Qed.

(** ** One pass of [loop] *)

Lemma seq_eq (a b : Cmd) (s s1 s2 : Sys) (e1 e2 : list Effect) :
  a s = (s1, e1) -> b s1 = (s2, e2) -> (a ;; b) s = (s2, (e1 ++ e2)%list).
Proof. intros Ha Hb. unfold seq. rewrite Ha. cbn [fst snd]. rewrite Hb. reflexivity. Qed.

Lemma checarBotao_steady (i : ButtonSample) (s : Sys) :
  leitura i = ultimoEstado s -> checarBotao i s = (s, []).
Proof.
  intros H. unfold checarBotao, seq, ifs, assign, skip. rewrite H.
  rewrite Bool.eqb_reflx. cbn [negb fst snd app].
  destruct s as [a t m w c u d r]. cbn [ultimoEstado ultimoDebounce].
  destruct (elapsed_gt (btn_now i) d debounceDelay), u; reflexivity.
Qed.

(** X11. A pass of [loop] with nothing to do is the identity.  If neither
    poll is due (the Telegram poll may also be held back by Wi-Fi being
    down), no radio code is waiting, the button reads as it did in the
    previous pass, and the motion clause does not apply (no motion, or
    disarmed, or already triggered), the pass changes no global and makes
    no call. *)
Theorem idle_pass_is_identity (i : LoopInput) (s : Sys) :
  within wifiCheckInterval (lastWiFiCheck s) (wifi_now (in_wifi i)) ->
  within msgInterval (lastMsgTime s) (tg_now (in_telegram i))
    \/ tg_connected (in_telegram i) = false ->
  in_rf i = None ->
  leitura (in_button i) = ultimoEstado s ->
  in_pir i = false \/ sistemaAtivo s = false \/ alarmeDisparado s = true ->
  loop i s = (s, []).
Proof.
  intros Hw Ht Hrf Hb Hm. unfold loop.
  apply (seq_eq _ _ s s s [] []).
  { apply checarWiFi_idle, within_elapsed; [reflexivity|exact Hw]. }
  apply (seq_eq _ _ s s s [] []).
  { apply checarTelegram_idle. destruct Ht as [Ht|Ht].
    - rewrite (within_elapsed msgInterval _ _ eq_refl Ht). reflexivity.
    - rewrite Ht. apply andb_false_r. }
  apply (seq_eq _ _ s s s [] []).
  { rewrite Hrf. reflexivity. }
  apply (seq_eq _ _ s s s [] []).
  { apply checarBotao_steady. exact Hb. }
  rewrite checarMovimento_eq.
  destruct Hm as [Hm|[Hm|Hm]]; rewrite Hm;
    rewrite ?andb_false_r; cbn [negb andb]; reflexivity.
Qed.

Lemma idle_pass_is_identity_witness :
  loop (pass_at 5000) s_polled = (s_polled, []).
Proof.
  apply idle_pass_is_identity.
  - exists 5000. split; [unfold wifiCheckInterval; lia|reflexivity].
  - left. exists 1000. split; [unfold msgInterval; lia|reflexivity].
  - reflexivity.
  - reflexivity.
  - left. reflexivity.
Defined.

Ltac quiet_full :=
  unfold checarWiFi, conectaWiFi, checarTelegram, checarRF, handleRF,
    checarBotao, handleNewMessage, enviarLogsTelegram, armarSistema,
    desarmarSistema, digitalWrite, sendMessage, logEvento, Serial_println,
    Serial_print;
  repeat first
    [ apply esperaWiFi_quiet_for; reflexivity
    | apply quiet_foreach; intros
    | quiet_step
    | intros ?s; reflexivity ].

Lemma checarWiFi_no_activate (i : WiFiCheck) :
  quiet is_ActivateSiren (checarWiFi i).
Proof. quiet_full. Qed.

Lemma checarTelegram_no_activate (i : TelegramPoll) :
  quiet is_ActivateSiren (checarTelegram i).
Proof. quiet_full. Qed.

Lemma checarRF_no_activate (rx : option Z) :
  quiet is_ActivateSiren (checarRF rx).
Proof. quiet_full. Qed.

Lemma checarBotao_no_activate (i : ButtonSample) :
  quiet is_ActivateSiren (checarBotao i).
Proof. quiet_full. Qed.

Lemma checarMovimento_disarmed (pir : bool) (s : Sys) :
  sistemaAtivo s = false -> checarMovimento pir s = (s, []).
Proof. intros H. rewrite checarMovimento_eq, H. reflexivity. Qed.

(** X12. A disarm code from the remote control wins its pass.  [loop]
    handles the radio after the chat and before it looks at the motion
    sensor, so a pass that receives [CODE_DISARM] ends disarmed, untriggered
    and with the relay LOW, whatever the chat said earlier in the pass and
    whatever the sensor reads; and the pass never writes the relay HIGH.
    (The button is read in between; its two clock reads are taken to be
    within the debounce delay of each other.) *)
Theorem disarm_code_wins_the_pass (i : LoopInput) (s : Sys) :
  in_rf i = Some CODE_DISARM ->
  reads_close (in_button i) ->
  flags (state_of (loop i) s) = (false, false, LOW) /\
  count is_ActivateSiren (effects_of (loop i) s) = 0%nat.
Proof.
  intros Hrf Hb. unfold loop.
  set (s2 := state_of (checarTelegram (in_telegram i))
               (state_of (checarWiFi (in_wifi i)) s)).
  set (s3 := state_of (checarRF (in_rf i)) s2).
  set (s4 := state_of (checarBotao (in_button i)) s3).
  assert (H3 : flags s3 = (false, false, LOW)).
  { unfold s3. rewrite Hrf. reflexivity. }
  assert (H4 : flags s4 = (false, false, LOW)).
  { unfold s4. rewrite (proj2 (checarBotao_inert _ s3 Hb)). exact H3. }
  assert (Hoff : sistemaAtivo s4 = false).
  { unfold flags in H4. injection H4 as Ha _ _. exact Ha. }
  assert (Hm : checarMovimento (in_pir i) s4 = (s4, []))
    by (apply checarMovimento_disarmed; exact Hoff).
  split.
  - rewrite !seq_state. fold s2. fold s3. fold s4.
    unfold state_of at 1. rewrite Hm. exact H4.
  - rewrite !seq_effects, !count_app. fold s2. fold s3. fold s4.
    rewrite checarWiFi_no_activate, checarTelegram_no_activate,
      checarRF_no_activate, checarBotao_no_activate.
    unfold effects_of. rewrite Hm. reflexivity.
Qed.

Lemma disarm_code_wins_the_pass_witness :
  flags (state_of
    (loop (mkLoopInput (wifi_check_up 5000)
             (mkTelegramPoll 5000 true [mkMsg "/armar" None] 5001)
             (Some CODE_DISARM) (sample_at HIGH 5002) true)) s_setup)
  = (false, false, LOW).
Proof.
  apply (disarm_code_wins_the_pass
           (mkLoopInput (wifi_check_up 5000)
              (mkTelegramPoll 5000 true [mkMsg "/armar" None] 5001)
              (Some CODE_DISARM) (sample_at HIGH 5002) true) s_setup).
  - reflexivity.
  - unfold reads_close. vm_compute. discriminate.
Defined.

(** X13. An arm code and motion in the same pass set the siren off in that
    pass.  From any state of a run, a pass that receives [CODE_ARM] and
    whose sensor reads motion ends armed and triggered with the relay HIGH,
    whatever the chat said earlier in the pass: there is no exit delay
    between arming and the first motion check.  (The button is read in
    between; its two clock reads are taken to be within the debounce delay
    of each other, so that it registers no press.) *)
Theorem arm_code_and_motion_trigger (i : LoopInput) (s : Sys) :
  reachable s ->
  in_rf i = Some CODE_ARM ->
  reads_close (in_button i) ->
  in_pir i = true ->
  flags (state_of (loop i) s) = (true, true, HIGH).
Proof.
  intros Hs Hrf Hb Hpir. unfold loop. rewrite !seq_state.
  set (s2 := state_of (checarTelegram (in_telegram i))
               (state_of (checarWiFi (in_wifi i)) s)).
  set (s3 := state_of (checarRF (in_rf i)) s2).
  set (s4 := state_of (checarBotao (in_button i)) s3).
  assert (I2 : Inv s2).
  { apply Inv_checarTelegram.
    apply Inv_flags with (s := s); [apply checarWiFi_flags|].
    apply reachable_Inv, Hs. }
  assert (I3 : Inv s3) by (apply Inv_checarRF; exact I2).
  assert (A3 : sistemaAtivo s3 = true).
  { unfold s3. rewrite Hrf.
    exact (armarSistema_armed_after "Controle RF" s2). }
  assert (F4 : flags s4 = flags s3)
    by exact (proj2 (checarBotao_inert _ s3 Hb)).
  assert (I4 : Inv s4) by (apply Inv_flags with (s := s3); assumption).
  clearbody s4. clearbody s3. clear s2 I2 I3.
  unfold flags in F4. injection F4 as Fa Ft Fr.
  rewrite A3 in Fa. destruct I4 as [_ Hrel].
  unfold state_of at 1. rewrite checarMovimento_eq, Hpir, Fa.
  destruct (alarmeDisparado s4) eqn:Et; cbn [andb negb fst].
  - unfold flags. rewrite Fa, Et, Hrel. reflexivity.
  - unfold flags. cbn. rewrite Fa. reflexivity.
Qed.

Lemma arm_code_and_motion_trigger_witness :
  flags (state_of
    (loop (mkLoopInput (wifi_check_up 5000) (poll_up 5000)
             (Some CODE_ARM) (sample_at HIGH 5002) true)) s_setup)
  = (true, true, HIGH).
Proof.
  apply (arm_code_and_motion_trigger
           (mkLoopInput (wifi_check_up 5000) (poll_up 5000)
              (Some CODE_ARM) (sample_at HIGH 5002) true) s_setup).
  - exact reachable_s_setup.
  - reflexivity.
  - unfold reads_close. vm_compute. discriminate.
  - reflexivity.
Defined.

(** ** The siren *)

Lemma neutral_Inv (c : Cmd) (s : Sys) :
  neutral c -> Inv s -> Inv (state_of c s).
Proof. intros Hn H. apply Inv_flags with (s := s); [apply Hn|exact H]. Qed.

Lemma siren_rule_neutral (c : Cmd) : neutral c -> siren_rule c.
Proof.
  intros Hn s _ Ht. left.
  specialize (Hn s). unfold flags in Hn. injection Hn as _ H _.
  rewrite H. exact Ht.
Qed.

Lemma siren_rule_seq (a b : Cmd) :
  (forall s, Inv s -> Inv (state_of a s)) ->
  siren_rule a -> siren_rule b -> siren_rule (a ;; b).
Proof.
  intros Hinv Ha Hb s HI Ht.
  rewrite seq_state, seq_effects, count_app.
  destruct (Ha s HI Ht) as [Hstill|Hoff]; [|right; lia].
  destruct (Hb (state_of a s) (Hinv s HI) Hstill) as [H|H];
    [left; exact H|right; lia].
Qed.

Lemma siren_rule_ifs (c : Sys -> bool) (a b : Cmd) :
  siren_rule a -> siren_rule b -> siren_rule (ifs c a b).
Proof.
  intros Ha Hb s HI Ht. unfold state_of, effects_of, ifs.
  destruct (c s); [exact (Ha s HI Ht)|exact (Hb s HI Ht)].
Qed.

Lemma siren_rule_skip : siren_rule skip.
Proof. apply siren_rule_neutral. intros s. reflexivity. Qed.

Lemma siren_rule_armarSistema (o : string) : siren_rule (armarSistema o).
Proof.
  intros s [Himp _] Ht. left. unfold state_of.
  rewrite armarSistema_armed by (apply Himp; exact Ht). exact Ht.
Qed.

Lemma siren_rule_desarmarSistema (o : string) : siren_rule (desarmarSistema o).
Proof. intros s _ _. right. apply Nat.le_refl. Qed.

Lemma siren_rule_handleNewMessage (m : TelegramMessage) :
  siren_rule (handleNewMessage m).
Proof.
  unfold handleNewMessage.
  apply siren_rule_seq.
  - intros s H. exact H.
  - apply siren_rule_neutral. intros s. reflexivity.
  - destruct (String.eqb (text m) "/armar"); [apply siren_rule_armarSistema|].
    destruct (String.eqb (text m) "/desarmar");
      [apply siren_rule_desarmarSistema|].
    apply siren_rule_neutral. intros s.
    destruct (String.eqb (text m) "/status"); [reflexivity|].
    destruct (String.eqb (text m) "/logs"); [|reflexivity].
    unfold enviarLogsTelegram. destruct (log_file m) as [size|]; [|reflexivity].
    destruct (size =? 0); reflexivity.
Qed.

Lemma siren_rule_mensagens (l : list TelegramMessage) :
  siren_rule (foreach l handleNewMessage).
Proof.
  induction l as [|m l IH]; cbn [foreach]; [apply siren_rule_skip|].
  apply siren_rule_seq;
    [intros s; apply Inv_handleNewMessage
    |apply siren_rule_handleNewMessage|exact IH].
Qed.

Lemma siren_rule_checarTelegram (i : TelegramPoll) :
  siren_rule (checarTelegram i).
Proof.
  unfold checarTelegram. apply siren_rule_ifs; [|apply siren_rule_skip].
  apply siren_rule_seq.
  - intros s H. exact H.
  - apply siren_rule_neutral. intros s. reflexivity.
  - apply siren_rule_seq.
    + intros s. apply Inv_foreach. exact Inv_handleNewMessage.
    + apply siren_rule_mensagens.
    + apply siren_rule_neutral. intros s. reflexivity.
Qed.

Lemma siren_rule_handleRF (code : Z) : siren_rule (handleRF code).
Proof.
  unfold handleRF.
  destruct (code =? CODE_ARM); [apply siren_rule_armarSistema|].
  destruct (code =? CODE_DISARM); [apply siren_rule_desarmarSistema|].
  apply siren_rule_neutral. intros s. reflexivity.
Qed.

Lemma siren_rule_checarRF (rx : option Z) : siren_rule (checarRF rx).
Proof.
  destruct rx as [value|]; [|apply siren_rule_skip].
  unfold checarRF. apply siren_rule_seq.
  - intros s H. exact H.
  - apply siren_rule_neutral. intros s. reflexivity.
  - apply siren_rule_seq.
    + intros s. apply Inv_handleRF.
    + apply siren_rule_handleRF.
    + apply siren_rule_neutral. intros s. reflexivity.
Qed.

Lemma siren_rule_checarBotao (i : ButtonSample) : siren_rule (checarBotao i).
Proof.
  unfold checarBotao. apply siren_rule_seq.
  - intros s. apply neutral_Inv. intros s'. unfold state_of, ifs.
    destruct (negb _); reflexivity.
  - apply siren_rule_neutral. intros s'. unfold state_of, ifs.
    destruct (negb _); reflexivity.
  - apply siren_rule_seq.
    + intros s H. unfold state_of, ifs.
      destruct (elapsed_gt _ _ _); [|exact H].
      destruct (_ && _); [|exact H].
      destruct (sistemaAtivo s);
        [ exact (Inv_desarmarSistema "Botão físico" s)
        | exact (Inv_armarSistema "Botão físico" s H) ].
    + apply siren_rule_ifs; [|apply siren_rule_skip].
      apply siren_rule_ifs; [|apply siren_rule_skip].
      apply siren_rule_ifs;
        [apply siren_rule_desarmarSistema|apply siren_rule_armarSistema].
    + apply siren_rule_neutral. intros s. reflexivity.
Qed.

Lemma siren_rule_checarMovimento (pir : bool) :
  siren_rule (checarMovimento pir).
Proof.
  intros s _ Ht. left. unfold state_of.
  rewrite checarMovimento_eq, Ht, andb_false_r. exact Ht.
Qed.

Lemma siren_rule_loop (i : LoopInput) : siren_rule (loop i).
Proof.
  unfold loop.
  apply siren_rule_seq;
    [ intros s; apply neutral_Inv; intros s'; apply checarWiFi_flags
    | apply siren_rule_neutral; intros s'; apply checarWiFi_flags | ].
  apply siren_rule_seq;
    [intros s; apply Inv_checarTelegram|apply siren_rule_checarTelegram|].
  apply siren_rule_seq;
    [intros s; apply Inv_checarRF|apply siren_rule_checarRF|].
  apply siren_rule_seq;
    [intros s; apply Inv_checarBotao|apply siren_rule_checarBotao|].
  apply siren_rule_checarMovimento.
Qed.

Lemma no_low_armarSistema (o : string) :
  quiet is_DeactivateSiren (armarSistema o).
Proof. quiet_full. Qed.

Lemma no_low_handleNewMessage (m : TelegramMessage) :
  text m <> "/desarmar" -> quiet is_DeactivateSiren (handleNewMessage m).
Proof.
  intros Hd. unfold handleNewMessage.
  apply quiet_seq; [apply quiet_emit; reflexivity|].
  destruct (String.eqb (text m) "/armar"); [apply no_low_armarSistema|].
  destruct (String.eqb_spec (text m) "/desarmar") as [E|_]; [contradiction|].
  quiet_full.
Qed.

Lemma no_low_mensagens (l : list TelegramMessage) :
  Forall (fun m => text m <> "/desarmar") l ->
  quiet is_DeactivateSiren (foreach l handleNewMessage).
Proof.
  induction 1 as [|m l Hm _ IH]; cbn [foreach]; [apply quiet_skip|].
  apply quiet_seq; [apply no_low_handleNewMessage; exact Hm|exact IH].
Qed.

Lemma no_low_checarTelegram (i : TelegramPoll) :
  Forall (fun m => text m <> "/desarmar") (tg_messages i) ->
  quiet is_DeactivateSiren (checarTelegram i).
Proof.
  intros H. unfold checarTelegram.
  apply quiet_ifs; [|apply quiet_skip].
  apply quiet_seq; [apply quiet_emit; reflexivity|].
  apply quiet_seq; [apply no_low_mensagens; exact H|apply quiet_assign].
Qed.

Lemma no_low_checarRF (rx : option Z) :
  rx <> Some CODE_DISARM -> quiet is_DeactivateSiren (checarRF rx).
Proof.
  intros H. destruct rx as [value|]; [|apply quiet_skip].
  unfold checarRF, handleRF.
  apply quiet_seq; [apply quiet_emit; reflexivity|].
  apply quiet_seq; [|apply quiet_emit; reflexivity].
  destruct (value =? CODE_ARM); [apply no_low_armarSistema|].
  destruct (Z.eqb_spec value CODE_DISARM) as [E|_];
    [subst value; contradiction|].
  apply quiet_emit. reflexivity.
Qed.

Lemma no_low_checarBotao (i : ButtonSample) :
  reads_close i -> quiet is_DeactivateSiren (checarBotao i).
Proof.
  intros H s. rewrite (proj1 (checarBotao_inert i s H)). reflexivity.
Qed.

Lemma no_low_checarWiFi (i : WiFiCheck) :
  quiet is_DeactivateSiren (checarWiFi i).
Proof. quiet_full. Qed.

Lemma no_low_checarMovimento (pir : bool) :
  quiet is_DeactivateSiren (checarMovimento pir).
Proof.
  intros s. unfold effects_of. rewrite checarMovimento_eq.
  destruct (_ && _); reflexivity.
Qed.

Lemma no_low_exec (op : Op) :
  no_disarm_in op -> quiet is_DeactivateSiren (exec op).
Proof.
  destruct op; cbn [exec no_disarm_in]; intros H.
  - apply no_low_checarWiFi.
  - apply no_low_checarTelegram. exact H.
  - apply no_low_handleNewMessage. exact H.
  - apply no_low_checarRF. exact H.
  - apply no_low_checarBotao. exact H.
  - apply no_low_checarMovimento.
  - destruct H as (Ht & Hr & Hb). unfold loop.
    apply quiet_seq; [apply no_low_checarWiFi|].
    apply quiet_seq; [apply no_low_checarTelegram; exact Ht|].
    apply quiet_seq; [apply no_low_checarRF; exact Hr|].
    apply quiet_seq; [apply no_low_checarBotao; exact Hb|].
    apply no_low_checarMovimento.
Qed.

Lemma flags_triggered (s s' : Sys) :
  flags s' = flags s -> alarmeDisparado s = true -> alarmeDisparado s' = true.
Proof.
  unfold flags. intros H Ht. injection H as _ H _. rewrite H. exact Ht.
Qed.

Lemma steady_intro (c : Cmd) :
  quiet is_DeactivateSiren c ->
  (forall s, Inv s -> alarmeDisparado s = true -> flags (state_of c s) = flags s) ->
  steady c.
Proof. intros Hq Hf s HI Ht. split; [apply Hf; assumption|apply Hq]. Qed.

Lemma steady_seq (a b : Cmd) : steady a -> steady b -> steady (a ;; b).
Proof.
  intros Ha Hb s HI Ht.
  destruct (Ha s HI Ht) as [Fa Ca].
  destruct (Hb (state_of a s) (Inv_flags _ _ Fa HI) (flags_triggered _ _ Fa Ht))
    as [Fb Cb].
  rewrite seq_state, seq_effects, count_app, Ca, Cb, Fb, Fa.
  split; reflexivity.
Qed.

Lemma steady_armarSistema (o : string) : steady (armarSistema o).
Proof.
  apply steady_intro; [apply no_low_armarSistema|].
  intros s [Himp _] Ht. unfold state_of.
  rewrite armarSistema_armed by (apply Himp; exact Ht). reflexivity.
Qed.

Lemma steady_handleNewMessage (m : TelegramMessage) :
  text m <> "/desarmar" -> steady (handleNewMessage m).
Proof.
  intros Hd. apply steady_intro; [apply no_low_handleNewMessage; exact Hd|].
  intros s HI Ht. unfold handleNewMessage. rewrite seq_state.
  change (state_of (Serial_print _) s) with s.
  destruct (String.eqb (text m) "/armar");
    [exact (proj1 (steady_armarSistema "Telegram" s HI Ht))|].
  destruct (String.eqb_spec (text m) "/desarmar") as [E|_]; [contradiction|].
  destruct (String.eqb (text m) "/status"); [reflexivity|].
  destruct (String.eqb (text m) "/logs"); [|reflexivity].
  unfold enviarLogsTelegram. destruct (log_file m) as [size|]; [|reflexivity].
  destruct (size =? 0); reflexivity.
Qed.

Lemma steady_mensagens (l : list TelegramMessage) :
  Forall (fun m => text m <> "/desarmar") l ->
  steady (foreach l handleNewMessage).
Proof.
  induction 1 as [|m l Hm _ IH]; cbn [foreach].
  - intros s _ _. split; reflexivity.
  - apply steady_seq; [apply steady_handleNewMessage; exact Hm|exact IH].
Qed.

Lemma steady_checarTelegram (i : TelegramPoll) :
  Forall (fun m => text m <> "/desarmar") (tg_messages i) ->
  steady (checarTelegram i).
Proof.
  intros H. apply steady_intro; [apply no_low_checarTelegram; exact H|].
  intros s HI Ht. unfold checarTelegram, state_of, ifs.
  destruct (_ && _); [|reflexivity].
  exact (proj1 (steady_mensagens _ H s HI Ht)).
Qed.

Lemma steady_checarRF (rx : option Z) :
  rx <> Some CODE_DISARM -> steady (checarRF rx).
Proof.
  intros H. apply steady_intro; [apply no_low_checarRF; exact H|].
  intros s HI Ht. destruct rx as [value|]; [|reflexivity].
  change (flags (state_of (handleRF value) s) = flags s). unfold handleRF.
  destruct (value =? CODE_ARM);
    [exact (proj1 (steady_armarSistema "Controle RF" s HI Ht))|].
  destruct (Z.eqb_spec value CODE_DISARM) as [E|_];
    [subst value; contradiction|reflexivity].
Qed.

Lemma steady_checarBotao (i : ButtonSample) :
  reads_close i -> steady (checarBotao i).
Proof.
  intros H. apply steady_intro; [apply no_low_checarBotao; exact H|].
  intros s _ _. exact (proj2 (checarBotao_inert i s H)).
Qed.

Lemma steady_checarWiFi (i : WiFiCheck) : steady (checarWiFi i).
Proof.
  apply steady_intro; [apply no_low_checarWiFi|].
  intros s _ _. apply checarWiFi_flags.
Qed.

Lemma steady_checarMovimento (pir : bool) : steady (checarMovimento pir).
Proof.
  apply steady_intro; [apply no_low_checarMovimento|].
  intros s _ Ht. unfold state_of.
  rewrite checarMovimento_eq, Ht, andb_false_r. reflexivity.
Qed.

Lemma steady_exec (op : Op) : no_disarm_in op -> steady (exec op).
Proof.
  destruct op; cbn [exec no_disarm_in]; intros H.
  - apply steady_checarWiFi.
  - apply steady_checarTelegram. exact H.
  - apply steady_handleNewMessage. exact H.
  - apply steady_checarRF. exact H.
  - apply steady_checarBotao. exact H.
  - apply steady_checarMovimento.
  - destruct H as (Ht & Hr & Hb). unfold loop.
    apply steady_seq; [apply steady_checarWiFi|].
    apply steady_seq; [apply steady_checarTelegram; exact Ht|].
    apply steady_seq; [apply steady_checarRF; exact Hr|].
    apply steady_seq; [apply steady_checarBotao; exact Hb|].
    apply steady_checarMovimento.
Qed.

(** X14. Once the siren sounds, only a disarm silences it.  From a triggered
    state of a run, a call of [loop] -- or a whole pass -- that carries no
    disarm command (no [/desarmar] among its chat messages, no
    [CODE_DISARM], no registered button press) leaves the system armed and
    triggered with the relay HIGH and never writes the relay LOW: Arm
    commands, [/status], [/logs], unknown texts and codes, further motion
    and Wi-Fi checks all leave the alarm on.  From any state at all such a
    call never writes the relay LOW, so in [loop] the LOW write is
    [desarmarSistema]'s alone.  And whatever the call carries, from a
    triggered state it either leaves the alarm on or writes the relay
    LOW. *)
Theorem siren_stays_on_until_disarm :
  (forall op s,
     reachable s -> alarmeDisparado s = true -> no_disarm_in op ->
     flags (state_of (exec op) s) = (true, true, HIGH) /\
     count is_DeactivateSiren (effects_of (exec op) s) = 0%nat) /\
  (forall op s,
     no_disarm_in op ->
     count is_DeactivateSiren (effects_of (exec op) s) = 0%nat) /\
  (forall o s,
     reachable s -> alarmeDisparado s = true ->
     armarSistema o s =
       (s, [SendMessage "SEU_CHAT_ID_TELEGRAM"
              "ℹ️ O sistema já se encontra armado." ""])) /\
  (forall op s,
     reachable s -> alarmeDisparado s = true ->
     (sistemaAtivo (state_of (exec op) s) = true /\
      alarmeDisparado (state_of (exec op) s) = true /\
      relay (state_of (exec op) s) = HIGH) \/
     (1 <= count is_DeactivateSiren (effects_of (exec op) s))%nat).
Proof.
  split; [|split; [|split]].
  - intros op s Hs Ht Hop.
    destruct (reachable_Inv s Hs) as [Himp Hrel].
    destruct (steady_exec op Hop s (conj Himp Hrel) Ht) as [Hf Hc].
    split; [|exact Hc].
    rewrite Hf. unfold flags. rewrite Hrel, Ht, (Himp Ht). reflexivity.
  - intros op s Hop. apply no_low_exec. exact Hop.
  - intros o s Hs Ht. destruct (reachable_Inv s Hs) as [Himp _].
    apply armarSistema_armed, Himp, Ht.
  - intros op s Hs Ht.
    assert (Hrule : siren_rule (exec op)).
    { destruct op; cbn [exec].
      - apply siren_rule_neutral. intros s'. apply checarWiFi_flags.
      - apply siren_rule_checarTelegram.
      - apply siren_rule_handleNewMessage.
      - apply siren_rule_checarRF.
      - apply siren_rule_checarBotao.
      - apply siren_rule_checarMovimento.
      - apply siren_rule_loop. }
    destruct (Hrule s (reachable_Inv s Hs) Ht) as [Hstill|Hoff];
      [left|right; exact Hoff].
    destruct (reachable_Inv _ (reach_op op s Hs)) as [Himp Hrel].
    split; [exact (Himp Hstill)|]. split; [exact Hstill|].
    rewrite Hrel. exact Hstill.
Qed.

Lemma siren_stays_on_until_disarm_witness :
  flags (state_of (exec (OpRF (Some CODE_ARM))) s_triggered)
    = (true, true, HIGH) /\
  flags (state_of
    (exec (OpLoop
       (mkLoopInput (wifi_check_up 20000)
          (mkTelegramPoll 20000 true
             [mkMsg "/armar" None; mkMsg "/status" None; mkMsg "desarmar" None]
             20001)
          (Some 42) (sample_at LOW 20002) true))) s_triggered)
    = (true, true, HIGH) /\
  count is_DeactivateSiren
    (effects_of (exec (OpMessage (mkMsg "/logs" (Some 10)))) s_setup) = 0%nat.
Proof.
  destruct siren_stays_on_until_disarm as (H1 & H2 & _ & _).
  split; [|split].
  - apply (H1 (OpRF (Some CODE_ARM)) s_triggered).
    + exact reachable_s_triggered.
    + reflexivity.
    + cbn. discriminate.
  - apply (H1 (OpLoop
       (mkLoopInput (wifi_check_up 20000)
          (mkTelegramPoll 20000 true
             [mkMsg "/armar" None; mkMsg "/status" None; mkMsg "desarmar" None]
             20001)
          (Some 42) (sample_at LOW 20002) true)) s_triggered).
    + exact reachable_s_triggered.
    + reflexivity.
    + cbn. split; [|split].
      * repeat constructor; discriminate.
      * discriminate.
      * unfold reads_close. vm_compute. discriminate.
  - apply (H2 (OpMessage (mkMsg "/logs" (Some 10))) s_setup).
    cbn. discriminate.
Defined.

Lemma balanced_skip : balanced skip.
Proof. intros s. reflexivity. Qed.

Lemma balanced_assign (f : Sys -> Sys) : balanced (assign f).
Proof. intros s. reflexivity. Qed.

Lemma balanced_emit (e : Effect) :
  is_ActivateSiren e = false -> is_alert e = false -> balanced (emit e).
Proof.
  intros H1 H2 s. unfold count, effects_of, emit. cbn. rewrite H1, H2.
  reflexivity.
Qed.

Lemma balanced_seq (a b : Cmd) : balanced a -> balanced b -> balanced (a ;; b).
Proof.
  intros Ha Hb s. rewrite seq_effects, !count_app, Ha, Hb. reflexivity.
Qed.

Lemma balanced_ifs (c : Sys -> bool) (a b : Cmd) :
  balanced a -> balanced b -> balanced (ifs c a b).
Proof.
  intros Ha Hb s. unfold effects_of, ifs.
  destruct (c s); [apply Ha|apply Hb].
Qed.

Lemma balanced_foreach {A : Type} (body : A -> Cmd) (l : list A) :
  (forall x, balanced (body x)) -> balanced (foreach l body).
Proof.
  intros Hb. induction l as [|x l IH]; cbn [foreach].
  - apply balanced_skip.
  - apply balanced_seq; [apply Hb|exact IH].
Qed.

Lemma balanced_dispararAlarme : balanced dispararAlarme.
Proof. intros s. reflexivity. Qed.

Lemma balanced_esperaWiFi (t : Z) (l : list (bool * Z)) :
  balanced (esperaWiFi t l).
Proof.
  induction l as [|[c now] l IH]; cbn [esperaWiFi]; [apply balanced_skip|].
  destruct (negb c && (ulong (now - t) <? 15000)); [|apply balanced_skip].
  apply balanced_seq; [apply balanced_emit; reflexivity|].
  apply balanced_seq; [apply balanced_emit; reflexivity|exact IH].
Qed.

Lemma balanced_status : 
  balanced (fun s => sendMessage CHAT_ID (statusResp s) "Markdown" s).
Proof.
  intros s. unfold effects_of, sendMessage, emit, count, statusResp.
  destruct (sistemaAtivo s), (alarmeDisparado s); reflexivity.
Qed.

Ltac balanced_step :=
  first
    [ apply balanced_dispararAlarme
    | apply balanced_esperaWiFi
    | apply balanced_status
    | apply balanced_foreach; intros
    | apply balanced_seq
    | apply balanced_ifs
    | apply balanced_skip
    | apply balanced_assign
    | apply balanced_emit; reflexivity
    | match goal with
      | |- balanced (if ?b then _ else _) => destruct b
      | |- balanced (match ?x with Some _ => _ | None => _ end) => destruct x
      end ].

Ltac balanced_full :=
  unfold setup, loop, checarMovimento, checarWiFi, conectaWiFi, checarTelegram,
    checarRF, handleRF, checarBotao, handleNewMessage, enviarLogsTelegram,
    armarSistema, desarmarSistema, digitalWrite, logEvento, Serial_println,
    Serial_print;
  repeat balanced_step.

Lemma balanced_exec (op : Op) : balanced (exec op).
Proof. destruct op; cbn [exec]; balanced_full. Qed.

Lemma balanced_setup (fs_ok : bool) (a : WiFiAttempt) : balanced (setup fs_ok a).
Proof. balanced_full. Qed.

(** X15. No silent alarm and no false alert.  In [setup], in every call
    [loop] makes and in a whole pass, from any state, the relay is written
    HIGH exactly as many times as the chat is sent "ALERTA! Movimento
    detectado! Sirene disparada!": the siren never starts without the
    owner being told, and no other message the firmware sends -- whatever
    the source tag or the state -- is that alert. *)
Theorem siren_and_alert_go_together :
  (forall op s,
     count is_ActivateSiren (effects_of (exec op) s)
     = count is_alert (effects_of (exec op) s)) /\
  (forall fs_ok a s,
     count is_ActivateSiren (effects_of (setup fs_ok a) s) = 0%nat /\
     count is_alert (effects_of (setup fs_ok a) s) = 0%nat) /\
  (forall o s,
     count is_alert (effects_of (armarSistema o) s) = 0%nat /\
     count is_alert (effects_of (desarmarSistema o) s) = 0%nat).
Proof.
  split; [exact balanced_exec|]. split.
  - intros fs_ok a s.
    assert (H : count is_ActivateSiren (effects_of (setup fs_ok a) s) = 0%nat).
    { revert s. fold (quiet is_ActivateSiren (setup fs_ok a)).
      unfold setup. quiet_full. }
    split; [exact H|]. rewrite <- (balanced_setup fs_ok a s). exact H.
  - intros o s. split.
    + unfold effects_of. destruct (sistemaAtivo s) eqn:E.
      * rewrite armarSistema_armed by exact E. reflexivity.
      * rewrite armarSistema_disarmed by exact E. reflexivity.
    + unfold effects_of. rewrite desarmarSistema_eq. reflexivity.
Qed.

(** ** Start-up *)

(** X16. A restart always begins in the same place.  Whatever level the
    relay pin floated at, whether the file system mounted, and however the
    first Wi-Fi attempt went, [setup] leaves the system disarmed and
    untriggered with the relay LOW, both poll timers at 0 and the button
    statics at their initial values; only [wifiConectadoAnterior] depends on
    the attempt.  [setup] sends no chat message. *)
Theorem setup_state (r fs_ok : bool) (a : WiFiAttempt) :
  state_of (setup fs_ok a) (boot r) =
    mkSys false false 0 0
          (negb (connected_on_entry a) && connected_on_exit a)
          HIGH 0 LOW /\
  count is_Notify (effects_of (setup fs_ok a) (boot r)) = 0%nat.
Proof.
  split.
  - unfold setup. rewrite !seq_state.
    change (state_of (emit (SerialBegin 115200)) (boot r)) with (boot r).
    remember (state_of (conectaWiFi a)) as f.
    destruct fs_ok; cbn; subst f; rewrite conectaWiFi_state;
      destruct (negb (connected_on_entry a) && connected_on_exit a);
      reflexivity.
  - generalize (boot r). fold (quiet is_Notify (setup fs_ok a)).
    unfold setup. quiet_full.
Qed.

(** ** The log line *)

(** X17. What [logEvento] writes.  The line goes to the serial port first,
    always.  It is appended to the log file, the same text, exactly when the
    file opens; when it does not, nothing is written to the file and the
    serial port gets an error line instead.  Until the clock is set --
    [tm_year] not above 120, so the whole of the year 2020 still counts as
    not set -- the line is "[sincronizando relogio...] <msg>"; afterwards it
    carries the formatted time. *)
Theorem log_line (now : LocalTime) (opened : bool) (msg : string) :
  hd_error (logEvento_calls now opened msg)
    = Some (LogSerialPrint ("[" ++ timestamp now ++ "] " ++ msg ++ nl)) /\
  (In (LogFilePrint ("[" ++ timestamp now ++ "] " ++ msg ++ nl))
      (logEvento_calls now opened msg) <-> opened = true) /\
  List.length (filter is_LogFilePrint (logEvento_calls now opened msg))
    = (if opened then 1 else 0)%nat /\
  (tm_year now <= 120 ->
   "[" ++ timestamp now ++ "] " ++ msg ++ nl
   = "[sincronizando relogio...] " ++ msg ++ nl) /\
  (120 < tm_year now ->
   "[" ++ timestamp now ++ "] " ++ msg ++ nl
   = "[" ++ formatted now ++ "] " ++ msg ++ nl).
Proof.
  split; [reflexivity|]. split; [|split; [|split]].
  - unfold logEvento_calls. destruct opened; cbn [negb]; split.
    + reflexivity.
    + intros _. right. right. left. reflexivity.
    + intros [H|[H|[H|[]]]]; discriminate H.
    + discriminate.
  - destruct opened; reflexivity.
  - intros Hy. unfold timestamp.
    destruct (Z.ltb_spec (2020 - 1900) (tm_year now)) as [H|H]; [lia|].
    reflexivity.
  - intros Hy. unfold timestamp.
    destruct (Z.ltb_spec (2020 - 1900) (tm_year now)) as [H|H]; [|lia].
    reflexivity.
Qed.

Lemma log_line_witness :
  "[" ++ timestamp (mkLocalTime 120 "2020-12-31 23:59:59") ++ "] "
      ++ "Sistema iniciado e configurado." ++ nl
  = "[sincronizando relogio...] " ++ "Sistema iniciado e configurado." ++ nl /\
  "[" ++ timestamp (mkLocalTime 125 "2025-06-12 10:00:00") ++ "] "
      ++ "WiFi conectado." ++ nl
  = "[" ++ "2025-06-12 10:00:00" ++ "] " ++ "WiFi conectado." ++ nl.
Proof.
  split.
  - apply (proj1 (proj2 (proj2 (proj2
      (log_line (mkLocalTime 120 "2020-12-31 23:59:59") true
                "Sistema iniciado e configurado."))))).
    cbn. lia.
  - apply (proj2 (proj2 (proj2 (proj2
      (log_line (mkLocalTime 125 "2025-06-12 10:00:00") true
                "WiFi conectado."))))).
    cbn. lia.
Defined.

(** ** Chat polling *)

Lemma mensagens_no_poll (l : list TelegramMessage) :
  quiet is_GetUpdates (foreach l handleNewMessage).
Proof. apply quiet_foreach. intros m. quiet_full. Qed.

(** X18. A pass of [loop] asks the chat server for updates at most once,
    whatever arrives in it; it does not ask at all while Wi-Fi is down; and
    handling the messages of a batch never starts another request. *)
Theorem one_poll_per_pass (i : LoopInput) (s : Sys) :
  (count is_GetUpdates (effects_of (loop i) s) <= 1)%nat /\
  (tg_connected (in_telegram i) = false ->
   count is_GetUpdates (effects_of (loop i) s) = 0%nat) /\
  (forall l s', count is_GetUpdates (effects_of (foreach l handleNewMessage) s')
                = 0%nat).
Proof.
  assert (Htg : forall s',
    count is_GetUpdates (effects_of (checarTelegram (in_telegram i)) s')
    = if elapsed_gt (tg_now (in_telegram i)) (lastMsgTime s') msgInterval
         && tg_connected (in_telegram i) then 1%nat else 0%nat).
  { intros s'. unfold checarTelegram, effects_of, ifs.
    destruct (_ && _); [|reflexivity].
    change (count is_GetUpdates
      (effects_of (emit GetUpdates ;;
                   foreach (tg_messages (in_telegram i)) handleNewMessage ;;
                   assign (set_lastMsgTime (tg_now_set (in_telegram i)))) s')
      = 1%nat).
    rewrite !seq_effects, !count_app, mensagens_no_poll, quiet_assign.
    reflexivity. }
  assert (Hloop : count is_GetUpdates (effects_of (loop i) s) =
    count is_GetUpdates (effects_of (checarTelegram (in_telegram i))
                           (state_of (checarWiFi (in_wifi i)) s))).
  { unfold loop. rewrite !seq_effects, !count_app.
    rewrite checarWiFi_quiet, checarRF_quiet, checarBotao_quiet,
      checarMovimento_quiet. cbn [Nat.add]. rewrite !Nat.add_0_r. reflexivity. }
  split; [|split].
  - rewrite Hloop, Htg. destruct (_ && _); lia.
  - intros Hdown. rewrite Hloop, Htg, Hdown, andb_false_r. reflexivity.
  - intros l s'. apply mensagens_no_poll.
Qed.

Lemma one_poll_per_pass_witness :
  count is_GetUpdates
    (effects_of (loop (mkLoopInput (wifi_check_up 9000) (poll_down 9000)
                         None (sample_at HIGH 9000) false)) s_setup) = 0%nat.
Proof.
  apply (proj1 (proj2 (one_poll_per_pass
           (mkLoopInput (wifi_check_up 9000) (poll_down 9000)
              None (sample_at HIGH 9000) false) s_setup))).
  reflexivity.
Defined.
